(** * Consus key-value-store daemon: a shallow embedding of [kvs/daemon.cc]

    The development follows the daemon's message handlers, the
    coordinator callback and the worker loop.  Handlers are functions in
    a small state-and-trace monad over the daemon's members; calls into
    the storage layer and the message bus are recorded as events.

    Libraries the daemon links against (libe's buffers and unpackers,
    BusyBee, the storage back end, the replicator and migrator classes)
    are not part of the embedded sources; they appear as an interface
    ([Externals], [Collaborators]) that every theorem quantifies over. *)

From Stdlib Require Import ZArith List Lia Bool.
From Stdlib.Strings Require Import Byte.
From stdpp Require Import gmap list.
Import ListNotations.

Local Open Scope Z_scope.

(** ** Plain data *)

(** [e::slice]: a run of bytes. *)
Definition slice := list byte.

(** 64-bit handles of [common/ids.h]; each wraps one [uint64_t]. *)
Definition comm_id := Z.
Definition data_center_id := Z.
Definition partition_id := Z.
Definition version_id := Z.
Definition transaction_id := Z.

(** [po6::net::location]; the default-constructed value has no address
    and port zero. *)
Record location := mk_location {
  loc_address : option Z;
  loc_port : Z
}.

Definition location_default : location :=
  {| loc_address := None; loc_port := 0 |}.

(** [consus_returncode] of [consus.h], the codes the daemon names plus the
    remaining network and storage kinds. *)
Inductive consus_returncode :=
| CONSUS_SUCCESS
| CONSUS_NOT_FOUND
| CONSUS_ABORTED
| CONSUS_COMMITTED
| CONSUS_GARBAGE
| CONSUS_OTHER (code : Z).

(** [busybee_returncode], as enumerated by the two switches of the daemon. *)
Inductive busybee_returncode :=
| BUSYBEE_SUCCESS
| BUSYBEE_SHUTDOWN
| BUSYBEE_POLLFAILED
| BUSYBEE_DISRUPTED
| BUSYBEE_ADDFDFAIL
| BUSYBEE_TIMEOUT
| BUSYBEE_EXTERNAL
| BUSYBEE_INTERRUPTED.

(** [network_msgtype], as enumerated by the dispatch switch of [loop]. *)
Inductive network_msgtype :=
| CONSUS_NOP
| CLIENT_RESPONSE
| UNSAFE_READ | UNSAFE_WRITE | UNSAFE_LOCK_OP
| TXMAN_BEGIN | TXMAN_READ | TXMAN_WRITE | TXMAN_COMMIT | TXMAN_ABORT
| TXMAN_PAXOS_2A | TXMAN_PAXOS_2B
| LV_VOTE_1A | LV_VOTE_1B | LV_VOTE_2A | LV_VOTE_2B | LV_VOTE_LEARN
| COMMIT_RECORD
| GV_PROPOSE | GV_VOTE_1A | GV_VOTE_1B | GV_VOTE_2A | GV_VOTE_2B
| KVS_REP_RD | KVS_REP_RD_RESP
| KVS_REP_WR | KVS_REP_WR_RESP
| KVS_RAW_RD | KVS_RAW_RD_RESP
| KVS_RAW_WR | KVS_RAW_WR_RESP
| KVS_LOCK_OP | KVS_LOCK_OP_RESP
| KVS_MIGRATE_SYN | KVS_MIGRATE_ACK.

(** [kvs_state]: only [ONLINE] is named by the daemon. *)
Inductive kvs_state :=
| KVS_REGISTERED
| KVS_ONLINE
| KVS_OFFLINE.

Definition kvs_state_eqb (a b : kvs_state) : bool :=
  match a, b with
  | KVS_REGISTERED, KVS_REGISTERED
  | KVS_ONLINE, KVS_ONLINE
  | KVS_OFFLINE, KVS_OFFLINE => true
  | _, _ => false
  end.

(** [lock_t] and [lock_op] of [common/lock.h]. *)
Inductive lock_t := LOCK_READ | LOCK_WRITE.
Inductive lock_op := LOCK_ACQUIRE | LOCK_RELEASE.

(** Modelled from the spec: the [configuration] class (its header and
    implementation are not among the sources).  A configuration is the
    versioned snapshot with the queries the daemon calls: [version],
    [exists], [get_address], [get_state], [get_data_center], [map] and
    [hash]. *)
Record configuration := mk_configuration {
  version : version_id;
  cfg_exists : comm_id -> bool;
  get_address : comm_id -> location;
  get_state : comm_id -> kvs_state;
  get_data_center : comm_id -> data_center_id;
  cfg_map : data_center_id -> Z -> comm_id * comm_id;
  cfg_hash : data_center_id -> Z -> option (list comm_id)
}.

(** ** [choose_index] *)

(** [memset(buf, c, n)] over a fresh buffer of [n] bytes. *)
Definition memset (c : byte) (n : nat) : list byte := repeat c n.

(** [memmove(dst, src, n)]: the first [n] bytes of [dst] are replaced by
    the first [n] bytes of [src]; the callers keep [n] within both. *)
Definition memmove (dst src : list byte) (n : nat) : list byte :=
  firstn n src ++ skipn n dst.

Definition byte_at (buf : list byte) (i : nat) : Z :=
  Z.of_N (Byte.to_N (nth i buf x00)).

(** [e::unpack16be]: two unsigned bytes, most significant first. *)
Definition unpack16be (buf : list byte) : Z :=
  Z.lor (Z.shiftl (byte_at buf 0) 8) (byte_at buf 1).

(** [daemon::choose_index]; the table is ignored by the source. *)
Definition choose_index (table key : slice) : Z :=
  let buf := memset x00 2 in
  let buf := memmove buf key (if (length key <? 2)%nat then length key else 2%nat) in
  unpack16be buf.

(** ** Buffers, unpackers and messages *)

(** The state of an [e::unpacker] after a chain of [>>] extractions:
    either [error()] is set, or the extracted value is available together
    with [remain()], the number of bytes left. *)
Inductive unpacker (A : Type) :=
| Unpack_error
| Unpacked (a : A) (remain : nat).

Arguments Unpack_error {A}.
Arguments Unpacked {A} a remain.

(** One packed item of an outgoing buffer, in the order of the [<<] chain. *)
Inductive field :=
| F_u64 (v : Z)
| F_rc (rc : consus_returncode)
| F_slice (s : slice)
| F_comm_id (c : comm_id)
| F_partition_id (p : partition_id)
| F_version_id (v : version_id).

(** An outgoing buffer: the message type followed by the packed items. *)
Record message := mk_message {
  msg_type : network_msgtype;
  msg_fields : list field
}.

(** An incoming [e::buffer], seen through the extraction chains the
    handlers run on it: the message type read by [loop], and what each
    handler's chain yields on the bytes that follow. *)
Record buffer := mk_buffer {
  buf_msgtype : unpacker network_msgtype;
  buf_read : unpacker (Z * slice * slice * Z);
  buf_write : unpacker (Z * Z * slice * slice * Z * slice);
  buf_read_resp : unpacker (Z * consus_returncode * Z * slice * comm_id);
  buf_write_resp : unpacker (Z * consus_returncode * comm_id * comm_id);
  buf_lock_op : unpacker (Z * slice * slice * transaction_id * lock_t * lock_op);
  buf_migrate : unpacker (partition_id * version_id)
}.

(** What [busybee_mta::recv] hands back: the return code and, on success,
    the sender and the buffer. *)
Record recv_result := mk_recv {
  recv_rc : busybee_returncode;
  recv_id : Z;
  recv_msg : buffer
}.

(** Calls that leave the daemon: storage operations and bus sends. *)
Inductive event :=
| DataGet (table key : slice) (timestamp : Z)
| DataPut (table key : slice) (timestamp : Z) (value : slice)
| DataDel (table key : slice) (timestamp : Z)
| BusSend (to : comm_id) (m : message).

(** ** The interface of the linked libraries *)

(** Constants of [common/constants.h] and [consus.h], the abstract
    [datalayer] with its [get], [put] and [del], BusyBee's [send], and the
    state types of the replicator and migrator classes.  The constants are
    non-negative literals. *)
Class Externals := {
  CONSUS_MAX_REPLICATION_FACTOR : Z;
  CONSUS_KVS_PARTITIONS : Z;
  CONSUS_WRITE_TOMBSTONE : Z;
  datalayer : Type;
  dl_get : datalayer -> slice -> slice -> Z ->
           (consus_returncode * Z * slice) * datalayer;
  dl_put : datalayer -> slice -> slice -> Z -> slice ->
           consus_returncode * datalayer;
  dl_del : datalayer -> slice -> slice -> Z ->
           consus_returncode * datalayer;
  busybee_mta : Type;
  bb_send : busybee_mta -> Z -> message -> busybee_returncode * busybee_mta;
  read_replicator : Type;
  write_replicator : Type;
  migrator : Type
}.

(** Why a thread stopped: [abort()], or a call through a null
    configuration pointer. *)
Inductive stop := Abort | NullConfig.

(** Outcome of [loop]: it returned, or it is blocked in [recv]. *)
Inductive loop_exit := Loop_returned | Loop_receiving.

Section Daemon.
Context `{X : Externals}.

(** [m_us], the [kvs] record of this server. *)
Record kvs := mk_kvs {
  us_id : comm_id;
  us_bind_to : location;
  us_dc : data_center_id
}.

(** The members of [daemon] the handlers touch.  [m_have_new_config] is
    the flag of [m_migrate_thread]; a null [m_config] is [None]. *)
Record daemon := mk_daemon {
  m_us : kvs;
  m_busybee : busybee_mta;
  m_config : option configuration;
  m_data : datalayer;
  m_repl_rd : gmap Z read_replicator;
  m_repl_wr : gmap Z write_replicator;
  m_migrations : gmap Z migrator;
  m_have_new_config : bool
}.

Definition set_busybee (b : busybee_mta) (d : daemon) : daemon :=
  mk_daemon (m_us d) b (m_config d) (m_data d)
            (m_repl_rd d) (m_repl_wr d) (m_migrations d) (m_have_new_config d).

Definition set_data (s : datalayer) (d : daemon) : daemon :=
  mk_daemon (m_us d) (m_busybee d) (m_config d) s
            (m_repl_rd d) (m_repl_wr d) (m_migrations d) (m_have_new_config d).

Definition install_config (c : configuration) (d : daemon) : daemon :=
  mk_daemon (mk_kvs (us_id (m_us d)) (us_bind_to (m_us d))
                    (get_data_center c (us_id (m_us d))))
            (m_busybee d) (Some c) (m_data d)
            (m_repl_rd d) (m_repl_wr d) (m_migrations d) true.

(** *** The handler monad: state, trace of events, and stops *)

Inductive result (A : Type) :=
| Done (a : A) (d : daemon) (tr : list event)
| Stopped (s : stop) (tr : list event).

Arguments Done {A} a d tr.
Arguments Stopped {A} s tr.

Definition M (A : Type) := daemon -> result A.

Definition ret {A} (a : A) : M A := fun d => Done a d [].

Definition bind {A B} (m : M A) (f : A -> M B) : M B :=
  fun d =>
    match m d with
    | Done a d1 tr1 =>
        match f a d1 with
        | Done b d2 tr2 => Done b d2 (tr1 ++ tr2)
        | Stopped s tr2 => Stopped s (tr1 ++ tr2)
        end
    | Stopped s tr1 => Stopped s tr1
    end.

Definition stop_with {A} (s : stop) : M A := fun _ => Stopped s [].

Definition trace_of {A} (r : result A) : list event :=
  match r with
  | Done _ _ tr => tr
  | Stopped _ tr => tr
  end.

Definition state_of {A} (r : result A) : option daemon :=
  match r with
  | Done _ d _ => Some d
  | Stopped _ _ => None
  end.

End Daemon.

Arguments Done {X A} a d tr.
Arguments Stopped {X A} s tr.

Notation "'let*' x ':=' m 'in' k" := (bind m (fun x => k))
  (at level 10, x name, m at level 100, k at level 200).
Notation "'let*' ' pat ':=' m 'in' k" :=
  (bind m (fun x => match x with pat => k end))
  (at level 10, pat pattern, m at level 100, k at level 200).

Section Handlers.
Context `{X : Externals}.

(** *** Primitive actions *)

(** [daemon::get_config]: the atomic load of [m_config]. *)
Definition get_config : M (option configuration) :=
  fun d => Done (m_config d) d [].

Definition get_us : M kvs := fun d => Done (m_us d) d [].

(** A call through the configuration pointer [c]. *)
Definition deref (c : option configuration) : M configuration :=
  match c with
  | Some cfg => ret cfg
  | None => stop_with NullConfig
  end.

(** [m_data->get], [m_data->put], [m_data->del]. *)
Definition data_get (table key : slice) (timestamp : Z)
  : M (consus_returncode * Z * slice) :=
  fun d =>
    let '(r, s) := dl_get (m_data d) table key timestamp in
    Done r (set_data s d) [DataGet table key timestamp].

Definition data_put (table key : slice) (timestamp : Z) (value : slice)
  : M consus_returncode :=
  fun d =>
    let '(rc, s) := dl_put (m_data d) table key timestamp value in
    Done rc (set_data s d) [DataPut table key timestamp value].

Definition data_del (table key : slice) (timestamp : Z)
  : M consus_returncode :=
  fun d =>
    let '(rc, s) := dl_del (m_data d) table key timestamp in
    Done rc (set_data s d) [DataDel table key timestamp].

(** [daemon::send]. *)
Definition send (id : comm_id) (msg : message) : M bool :=
  fun d =>
    let '(rc, b) := bb_send (m_busybee d) id msg in
    match rc with
    | BUSYBEE_SUCCESS => Done true (set_busybee b d) [BusSend id msg]
    | BUSYBEE_DISRUPTED => Done false (set_busybee b d) [BusSend id msg]
    | BUSYBEE_SHUTDOWN
    | BUSYBEE_INTERRUPTED
    | BUSYBEE_POLLFAILED
    | BUSYBEE_ADDFDFAIL
    | BUSYBEE_TIMEOUT
    | BUSYBEE_EXTERNAL => Stopped Abort [BusSend id msg]
    end.

(** *** The coordinator callback *)

(** [coordinator_callback::new_config]; [up] is the unpacker after
    [up >> *c]. *)
Definition new_config (up : unpacker configuration) : M bool :=
  match up with
  | Unpack_error => ret false
  | Unpacked c remain =>
      if negb (remain =? 0)%nat then ret false
      else fun d => Done true (install_config c d) []
  end.

(** [coordinator_callback::has_id]. *)
Definition has_id (d : daemon) (id : comm_id) : bool :=
  match m_config d with
  | Some c => cfg_exists c id
  | None => false
  end.

(** [coordinator_callback::address]. *)
Definition address (d : daemon) (id : comm_id) : location :=
  match m_config d with
  | Some c => get_address c id
  | None => location_default
  end.

(** [coordinator_callback::is_steady_state]. *)
Definition is_steady_state (d : daemon) (id : comm_id) : bool :=
  match m_config d with
  | Some c => kvs_state_eqb (get_state c id) KVS_ONLINE
  | None => false
  end.

(** *** Raw reads and writes *)

(** [daemon::process_raw_rd]. *)
Definition process_raw_rd (id : comm_id) (up : unpacker (Z * slice * slice * Z))
  : M unit :=
  match up with
  | Unpack_error => ret tt
  | Unpacked (nonce, table, key, timestamp) _ =>
      let* c := get_config in
      let index := choose_index table key in
      if index =? CONSUS_MAX_REPLICATION_FACTOR then ret tt
      else
        let* cfg := deref c in
        let* us := get_us in
        let '(owner1, owner2) := cfg_map cfg (us_dc us) index in
        let* '(rc, timestamp, value) := data_get table key timestamp in
        let msg := mk_message KVS_RAW_RD_RESP
                     [F_u64 nonce; F_rc rc; F_u64 timestamp;
                      F_slice value; F_comm_id owner1] in
        let* _ := send id msg in
        ret tt
  end.

(** [daemon::process_raw_wr]. *)
Definition process_raw_wr (id : comm_id)
    (up : unpacker (Z * Z * slice * slice * Z * slice)) : M unit :=
  match up with
  | Unpack_error => ret tt
  | Unpacked (nonce, flags, table, key, timestamp, value) _ =>
      let* c := get_config in
      let index := choose_index table key in
      if index =? CONSUS_MAX_REPLICATION_FACTOR then ret tt
      else
        let* cfg := deref c in
        let* us := get_us in
        let '(owner1, owner2) := cfg_map cfg (us_dc us) index in
        let* rc :=
          (if negb (Z.land CONSUS_WRITE_TOMBSTONE flags =? 0)
           then data_del table key timestamp
           else data_put table key timestamp value) in
        let msg := mk_message KVS_RAW_WR_RESP
                     [F_u64 nonce; F_rc rc; F_comm_id owner1; F_comm_id owner2] in
        let* _ := send id msg in
        ret tt
  end.

(** *** Lock operations and migration *)

(** [daemon::process_lock_op]: the reply is packed over the request. *)
Definition process_lock_op (id : comm_id)
    (up : unpacker (Z * slice * slice * transaction_id * lock_t * lock_op))
  : M unit :=
  match up with
  | Unpack_error => ret tt
  | Unpacked (nonce, table, key, txid, type, op) _ =>
      let msg := mk_message KVS_LOCK_OP_RESP [F_u64 nonce; F_rc CONSUS_SUCCESS] in
      let* _ := send id msg in
      ret tt
  end.

(** [daemon::process_migrate_syn]. *)
Definition process_migrate_syn (id : comm_id)
    (up : unpacker (partition_id * version_id)) : M unit :=
  match up with
  | Unpack_error => ret tt
  | Unpacked (key, v) _ =>
      let* c := get_config in
      let* cfg := deref c in
      if version cfg >=? v then
        let msg := mk_message KVS_MIGRATE_ACK
                     [F_partition_id key; F_version_id (version cfg)] in
        let* _ := send id msg in
        ret tt
      else ret tt
  end.

(** [daemon::choose_replicas]: the replicas kept and the desired
    replication. *)
Definition choose_replicas (table key : slice) : M (list comm_id * Z) :=
  let desired_replication := 5 in
  let index := choose_index table key in
  if index =? CONSUS_KVS_PARTITIONS then ret ([], desired_replication)
  else
    let* c := get_config in
    let* cfg := deref c in
    let* us := get_us in
    let dc := get_data_center cfg (us_id us) in
    let replicas :=
      match cfg_hash cfg dc index with
      | Some rs => rs
      | None => []
      end in
    ret (firstn (Z.to_nat desired_replication) replicas, desired_replication).

End Handlers.

(** ** Replicators, migrators and the worker loop *)

(** The entry points of [read_replicator], [write_replicator] and
    [migrator] that the daemon calls with itself as argument, and the two
    handlers that only create and drive a replicator. *)
Class Collaborators `{X : Externals} := {
  read_replicator_response :
    read_replicator -> comm_id -> consus_returncode -> Z -> slice -> comm_id ->
    M unit;
  write_replicator_response :
    write_replicator -> comm_id -> consus_returncode -> comm_id -> comm_id ->
    M unit;
  migrator_ack : migrator -> version_id -> M unit;
  process_rep_rd : comm_id -> unpacker (Z * slice * slice * Z) -> M unit;
  process_rep_wr :
    comm_id -> unpacker (Z * Z * slice * slice * Z * slice) -> M unit
}.

Section Loop.
Context `{C : Collaborators}.

(** [daemon::process_raw_rd_resp]. *)
Definition process_raw_rd_resp (id : comm_id)
    (up : unpacker (Z * consus_returncode * Z * slice * comm_id)) : M unit :=
  match up with
  | Unpack_error => ret tt
  | Unpacked (nonce, rc, timestamp, value, owner) _ =>
      fun d =>
        match m_repl_rd d !! nonce with
        | Some r => read_replicator_response r id rc timestamp value owner d
        | None => Done tt d []
        end
  end.

(** [daemon::process_raw_wr_resp]. *)
Definition process_raw_wr_resp (id : comm_id)
    (up : unpacker (Z * consus_returncode * comm_id * comm_id)) : M unit :=
  match up with
  | Unpack_error => ret tt
  | Unpacked (nonce, rc, owner1, owner2) _ =>
      fun d =>
        match m_repl_wr d !! nonce with
        | Some w => write_replicator_response w id rc owner1 owner2 d
        | None => Done tt d []
        end
  end.

(** [daemon::process_migrate_ack]. *)
Definition process_migrate_ack (id : comm_id)
    (up : unpacker (partition_id * version_id)) : M unit :=
  match up with
  | Unpack_error => ret tt
  | Unpacked (key, v) _ =>
      fun d =>
        match m_migrations d !! key with
        | Some m => migrator_ack m v d
        | None => Done tt d []
        end
  end.

(** The dispatch switch of [daemon::loop]. *)
Definition dispatch (id : comm_id) (msg : buffer) (mt : network_msgtype)
  : M unit :=
  match mt with
  | KVS_REP_RD => process_rep_rd id (buf_read msg)
  | KVS_REP_WR => process_rep_wr id (buf_write msg)
  | KVS_RAW_RD => process_raw_rd id (buf_read msg)
  | KVS_RAW_RD_RESP => process_raw_rd_resp id (buf_read_resp msg)
  | KVS_RAW_WR => process_raw_wr id (buf_write msg)
  | KVS_RAW_WR_RESP => process_raw_wr_resp id (buf_write_resp msg)
  | KVS_LOCK_OP => process_lock_op id (buf_lock_op msg)
  | KVS_MIGRATE_SYN => process_migrate_syn id (buf_migrate msg)
  | KVS_MIGRATE_ACK => process_migrate_ack id (buf_migrate msg)
  | _ => ret tt
  end.

(** The receive loop of [daemon::loop], driven by the results that
    successive [recv] calls hand back; once they are used up the thread
    is blocked in [recv]. *)
Fixpoint loop (inputs : list recv_result) : M loop_exit :=
  match inputs with
  | [] => ret Loop_receiving
  | r :: rest =>
      match recv_rc r with
      | BUSYBEE_SUCCESS =>
          match buf_msgtype (recv_msg r) with
          | Unpack_error => loop rest
          | Unpacked mt _ =>
              let* _ := dispatch (recv_id r) (recv_msg r) mt in
              loop rest
          end
      | BUSYBEE_SHUTDOWN => ret Loop_returned
      | BUSYBEE_DISRUPTED
      | BUSYBEE_INTERRUPTED => loop rest
      | BUSYBEE_POLLFAILED
      | BUSYBEE_ADDFDFAIL
      | BUSYBEE_TIMEOUT
      | BUSYBEE_EXTERNAL => stop_with Abort
      end
  end.

End Loop.

(** ** Statements of the specification, and the replies of the daemon *)

Section Readings.
Context `{X : Externals}.

(** A partition index is in range when it addresses one of the
    [CONSUS_KVS_PARTITIONS] partitions of the map. *)
Definition index_in_range (index : Z) : bool :=
  (0 <=? index) && (index <? CONSUS_KVS_PARTITIONS).

(** The reply of a raw read: nonce, return code, actual timestamp, value
    and first owner, in packing order. *)
Definition raw_rd_resp (nonce : Z) (reply : consus_returncode * Z * slice)
    (owner1 : comm_id) : message :=
  let '(rc, timestamp, value) := reply in
  mk_message KVS_RAW_RD_RESP
    [F_u64 nonce; F_rc rc; F_u64 timestamp; F_slice value; F_comm_id owner1].

(** The reply of a raw write: nonce, return code and the two owners. *)
Definition raw_wr_resp (nonce : Z) (rc : consus_returncode)
    (owners : comm_id * comm_id) : message :=
  mk_message KVS_RAW_WR_RESP
    [F_u64 nonce; F_rc rc; F_comm_id (fst owners); F_comm_id (snd owners)].

(** The acknowledgement of a migration SYN. *)
Definition migrate_ack (key : partition_id) (v : version_id) : message :=
  mk_message KVS_MIGRATE_ACK [F_partition_id key; F_version_id v].

(** The reply of a lock operation. *)
Definition lock_op_resp (nonce : Z) (rc : consus_returncode) : message :=
  mk_message KVS_LOCK_OP_RESP [F_u64 nonce; F_rc rc].

(** Two daemon states that differ at most in the bus. *)
Definition same_but_bus (d d' : daemon) : Prop :=
  exists b, d' = set_busybee b d.

(** A run that did not end in [abort()]. *)
Definition tolerated {A} (r : result A) : Prop :=
  forall tr, r <> Stopped Abort tr.

(** The reading "a configuration that is not newer than the installed
    one is ignored". *)
Definition ignores_stale_configs : Prop :=
  forall (d : daemon) (cur c : configuration) (remain : nat),
    m_config d = Some cur ->
    version c <= version cur ->
    state_of (new_config (Unpacked c remain) d) = Some d.

(** The reading "a send that is disrupted or interrupted does not abort
    the process". *)
Definition send_tolerates_interruption : Prop :=
  forall (d : daemon) (id : comm_id) (msg : message),
    fst (bb_send (m_busybee d) id msg) = BUSYBEE_DISRUPTED \/
    fst (bb_send (m_busybee d) id msg) = BUSYBEE_INTERRUPTED ->
    tolerated (send id msg d).

(** *** Lock operations as a compare-and-swap *)

Record lock_request := mk_lock_request {
  lr_from : comm_id;
  lr_nonce : Z;
  lr_table : slice;
  lr_key : slice;
  lr_txid : transaction_id;
  lr_type : lock_t;
  lr_op : lock_op
}.

Definition lock_key (r : lock_request) : list N * list N :=
  (Byte.to_N <$> lr_table r, Byte.to_N <$> lr_key r).

(** The lock record in the words of the specification: a map from
    (table, key) to the transaction that holds the lock.  An acquire
    succeeds when the lock is free or already held by the same
    transaction; a release by another transaction changes nothing. *)
Definition cas_acquire_succeeds (locks : gmap (list N * list N) Z)
    (r : lock_request) : bool :=
  match locks !! lock_key r with
  | None => true
  | Some holder => holder =? lr_txid r
  end.

Definition cas_step (locks : gmap (list N * list N) Z) (r : lock_request)
  : gmap (list N * list N) Z :=
  match lr_op r with
  | LOCK_ACQUIRE =>
      if cas_acquire_succeeds locks r
      then <[lock_key r := lr_txid r]> locks
      else locks
  | LOCK_RELEASE =>
      match locks !! lock_key r with
      | Some holder =>
          if holder =? lr_txid r then delete (lock_key r) locks else locks
      | None => locks
      end
  end.

Definition cas_locks (history : list lock_request) : gmap (list N * list N) Z :=
  fold_left cas_step history ∅.

(** The daemon serving a lock request, and a history of them. *)
Definition serve_lock_request (r : lock_request) : M unit :=
  process_lock_op (lr_from r)
    (Unpacked (lr_nonce r, lr_table r, lr_key r, lr_txid r, lr_type r, lr_op r) 0).

Fixpoint serve_lock_requests (history : list lock_request) : M unit :=
  match history with
  | [] => ret tt
  | r :: rest => let* _ := serve_lock_request r in serve_lock_requests rest
  end.

(** The return code carried by a [KVS_LOCK_OP_RESP] on the trace. *)
Fixpoint lock_reply (tr : list event) : option consus_returncode :=
  match tr with
  | BusSend _ (mk_message KVS_LOCK_OP_RESP [F_u64 _; F_rc rc]) :: _ => Some rc
  | _ :: rest => lock_reply rest
  | [] => None
  end.

(** The reading "an acquire is answered with success exactly when the
    lock is free or held by the requester". *)
Definition lock_op_is_cas : Prop :=
  forall (history : list lock_request) (r : lock_request) (d d' : daemon)
         (tr : list event),
    lr_op r = LOCK_ACQUIRE ->
    serve_lock_requests history d = Done tt d' tr ->
    (lock_reply (trace_of (serve_lock_request r d')) = Some CONSUS_SUCCESS
     <-> cas_acquire_succeeds (cas_locks history) r = true).

End Readings.

Section BusReadings.
Context `{C : Collaborators}.

(** The reading "on every [recv] or [send] result: SHUTDOWN ends the
    loop, DISRUPTED and INTERRUPTED never abort the process, and
    POLLFAILED, ADDFDFAIL, TIMEOUT and EXTERNAL abort it". *)
Definition bus_results_as_specified : Prop :=
  (forall (r : recv_result) (rest : list recv_result) (d : daemon),
      recv_rc r = BUSYBEE_SHUTDOWN ->
      loop (r :: rest) d = Done Loop_returned d []) /\
  (forall (r : recv_result) (rest : list recv_result) (d : daemon),
      In (recv_rc r) [BUSYBEE_DISRUPTED; BUSYBEE_INTERRUPTED] ->
      loop (r :: rest) d = loop rest d) /\
  (forall (r : recv_result) (rest : list recv_result) (d : daemon),
      In (recv_rc r) [BUSYBEE_POLLFAILED; BUSYBEE_ADDFDFAIL;
                      BUSYBEE_TIMEOUT; BUSYBEE_EXTERNAL] ->
      loop (r :: rest) d = Stopped Abort []) /\
  send_tolerates_interruption /\
  (forall (d : daemon) (id : comm_id) (msg : message),
      In (fst (bb_send (m_busybee d) id msg))
         [BUSYBEE_POLLFAILED; BUSYBEE_ADDFDFAIL;
          BUSYBEE_TIMEOUT; BUSYBEE_EXTERNAL] ->
      send id msg d = Stopped Abort [BusSend id msg]).

End BusReadings.

(** ** A small instance of the interface

    Replication factor 9, 256 partitions, tombstone bit 1, a store kept
    as a list of versioned cells, a bus that answers from a script of
    return codes, and replicators without state.  It serves to run the
    handlers on concrete inputs. *)

Fixpoint slice_eqb (a b : slice) : bool :=
  match a, b with
  | [], [] => true
  | x :: a', y :: b' => Byte.eqb x y && slice_eqb a' b'
  | _, _ => false
  end.

(** The newest cell of (table, key) at or below [timestamp]; [None] in a
    cell is a tombstone. *)
Fixpoint cells_get (cells : list (slice * slice * Z * option slice))
    (table key : slice) (timestamp : Z) : option (Z * option slice) :=
  match cells with
  | [] => None
  | (t, k, ts, v) :: rest =>
      let older := cells_get rest table key timestamp in
      if slice_eqb t table && slice_eqb k key && (ts <=? timestamp) then
        match older with
        | Some (ts', v') => if ts' <? ts then Some (ts, v) else older
        | None => Some (ts, v)
        end
      else older
  end.

Definition sample_externals : Externals := {|
  CONSUS_MAX_REPLICATION_FACTOR := 9;
  CONSUS_KVS_PARTITIONS := 256;
  CONSUS_WRITE_TOMBSTONE := 1;
  datalayer := list (slice * slice * Z * option slice);
  dl_get := fun cells table key timestamp =>
    match cells_get cells table key timestamp with
    | Some (ts, Some v) => ((CONSUS_SUCCESS, ts, v), cells)
    | _ => ((CONSUS_NOT_FOUND, 0, []), cells)
    end;
  dl_put := fun cells table key timestamp value =>
    (CONSUS_SUCCESS, (table, key, timestamp, Some value) :: cells);
  dl_del := fun cells table key timestamp =>
    (CONSUS_SUCCESS, (table, key, timestamp, None) :: cells);
  busybee_mta := list busybee_returncode;
  bb_send := fun script _ _ =>
    match script with
    | [] => (BUSYBEE_SUCCESS, [])
    | rc :: rest => (rc, rest)
    end;
  read_replicator := unit;
  write_replicator := unit;
  migrator := unit
|}.

Definition sample_collaborators : @Collaborators sample_externals := {|
  read_replicator_response := fun _ _ _ _ _ _ => ret tt;
  write_replicator_response := fun _ _ _ _ _ => ret tt;
  migrator_ack := fun _ _ => ret tt;
  process_rep_rd := fun _ _ => ret tt;
  process_rep_wr := fun _ _ => ret tt
|}.

(** A configuration with the given version in which server [1] is online
    in data center [7] and every partition is owned by servers 1 and 2. *)
Definition sample_config (v : version_id) : configuration := {|
  version := v;
  cfg_exists := fun id => id =? 1;
  get_address := fun _ => mk_location (Some 2130706433) 22751;
  get_state := fun id => if id =? 1 then KVS_ONLINE else KVS_OFFLINE;
  get_data_center := fun _ => 7;
  cfg_map := fun _ _ => (1, 2);
  cfg_hash := fun _ _ => Some [1; 2]
|}.

Definition sample_daemon (c : option configuration)
    (script : list busybee_returncode) : @daemon sample_externals :=
  @mk_daemon sample_externals
    (mk_kvs 1 location_default 7) script c
    [("t"%byte :: nil, "k"%byte :: nil, 10, Some ("x"%byte :: nil))]
    ∅ ∅ ∅ false.

(** A buffer on which every extraction fails, and a [recv] that only
    reports a return code. *)
Definition corrupt_buffer : buffer :=
  mk_buffer Unpack_error Unpack_error Unpack_error Unpack_error
            Unpack_error Unpack_error Unpack_error.

Definition recv_code (rc : busybee_returncode) : recv_result :=
  mk_recv rc 0 corrupt_buffer.

(** Lock requests of transaction [txid] on table "t", key "k". *)
Definition sample_lock_request (txid : transaction_id) (op : lock_op)
  : lock_request :=
  mk_lock_request 5 3 ("t"%byte :: nil) ("k"%byte :: nil) txid LOCK_WRITE op.

(** * Further parts of the daemon *)

(** ** [split_by_newlines] *)

Definition newline : byte := x0a.

(** [std::string::find_first_of(c)]: the first position that holds [c];
    [None] stands for [npos]. *)
Fixpoint find_first_of (c : byte) (s : list byte) : option nat :=
  match s with
  | [] => None
  | x :: rest =>
      if Byte.eqb x c then Some 0%nat
      else option_map S (find_first_of c rest)
  end.

(** [std::string::substr(pos, n)], for [pos] within the string: at most
    [n] characters from position [pos] on. *)
Definition substr (s : list byte) (pos n : nat) : list byte :=
  firstn n (skipn pos s).

(** The [while (!s.empty())] loop of [split_by_newlines]; [v] is the vector
    built so far.  Every turn on a non-empty [s] shortens it, so
    [length s] turns are enough. *)
Fixpoint split_loop (fuel : nat) (s : list byte) (v : list (list byte))
  : list (list byte) :=
  match fuel with
  | O => v
  | S fuel' =>
      match s with
      | [] => v
      | _ :: _ =>
          match find_first_of newline s with
          | None => split_loop fuel' [] (v ++ [s])
          | Some idx =>
              split_loop fuel' (substr s (idx + 1) (length s))
                         (v ++ [substr s 0 idx])
          end
      end
  end.

Definition split_by_newlines (s : list byte) : list (list byte) :=
  split_loop (length s) s [].

(** Writing lines back, each followed by a newline. *)
Definition join_lines (v : list (list byte)) : list byte :=
  concat (map (fun l => l ++ [newline]) v).

(** A text with its last line closed: a non-empty text that does not end
    in a newline gets one. *)
Definition terminated (s : list byte) : list byte :=
  match s with
  | [] => []
  | _ :: _ => if Byte.eqb (List.last s x00) newline then s else s ++ [newline]
  end.

(** ** Keys for a given partition index *)

Definition byte_of_Z (z : Z) : byte :=
  match Byte.of_N (Z.to_N z) with
  | Some b => b
  | None => x00
  end.

(** The two-byte key whose big-endian value is [n]. *)
Definition key_of_index (n : Z) : slice :=
  [byte_of_Z (n / 256); byte_of_Z (n mod 256)].

Section Conduct.
Context `{X : Externals}.

(** ** What a handler may touch *)





(** ** Sequences of deliveries *)

(** The callback run on successive blobs; the results are collected. *)
Fixpoint deliver_configs (ups : list (unpacker configuration)) : M (list bool) :=
  match ups with
  | [] => ret []
  | up :: rest =>
      let* ok := new_config up in
      let* oks := deliver_configs rest in
      ret (ok :: oks)
  end.

(** The configuration a blob carries when [new_config] accepts it. *)
Definition accepted (up : unpacker configuration) : option configuration :=
  match up with
  | Unpacked c O => Some c
  | _ => None
  end.

(** A result with [tr] put in front of its trace. *)
Definition after_trace {A} (tr : list event) (r : result A) : result A :=
  match r with
  | Done a d t => Done a d (tr ++ t)
  | Stopped s t => Stopped s (tr ++ t)
  end.

Definition is_error {A} (up : unpacker A) : bool :=
  match up with
  | Unpack_error => true
  | Unpacked _ _ => false
  end.

Definition is_none {A} (o : option A) : bool :=
  match o with
  | None => true
  | Some _ => false
  end.

(** Deliveries the daemon [d] has nothing to do with: a disrupted or
    interrupted [recv], a malformed header, a message type that
    key-value stores do not process, a corrupt payload, and a response or
    acknowledgement for a nonce or partition without state. *)
Definition ignored_by (d : daemon) (r : recv_result) : bool :=
  match recv_rc r with
  | BUSYBEE_DISRUPTED | BUSYBEE_INTERRUPTED => true
  | BUSYBEE_SUCCESS =>
      match buf_msgtype (recv_msg r) with
      | Unpack_error => true
      | Unpacked mt _ =>
          match mt with
          | KVS_REP_RD | KVS_REP_WR => false
          | KVS_RAW_RD => is_error (buf_read (recv_msg r))
          | KVS_RAW_WR => is_error (buf_write (recv_msg r))
          | KVS_LOCK_OP => is_error (buf_lock_op (recv_msg r))
          | KVS_MIGRATE_SYN => is_error (buf_migrate (recv_msg r))
          | KVS_RAW_RD_RESP =>
              match buf_read_resp (recv_msg r) with
              | Unpack_error => true
              | Unpacked (nonce, _, _, _, _) _ => is_none (m_repl_rd d !! nonce)
              end
          | KVS_RAW_WR_RESP =>
              match buf_write_resp (recv_msg r) with
              | Unpack_error => true
              | Unpacked (nonce, _, _, _) _ => is_none (m_repl_wr d !! nonce)
              end
          | KVS_MIGRATE_ACK =>
              match buf_migrate (recv_msg r) with
              | Unpack_error => true
              | Unpacked (key, _) _ => is_none (m_migrations d !! key)
              end
          | _ => true
          end
      end
  | _ => false
  end.

End Conduct.

(** A buffer of the given type whose payload reads as a raw read; the
    other extraction chains fail on it. *)
Definition read_buffer (mt : network_msgtype) (nonce : Z) (table key : slice)
    (timestamp : Z) : buffer :=
  mk_buffer (Unpacked mt 0%nat) (Unpacked (nonce, table, key, timestamp) 0%nat)
            Unpack_error Unpack_error Unpack_error Unpack_error Unpack_error.

(** * Properties *)

(** ** Arithmetic of the two-byte prefix *)

Lemma byte_at_range (buf : list byte) (i : nat) : 0 <= byte_at buf i <= 255.
Proof.
  unfold byte_at.
  pose proof (Byte.to_N_bounded (nth i buf x00)) as Hb.
  lia.
Qed.

Lemma lor_shiftl_8 (hi lo : Z) :
  0 <= lo <= 255 -> Z.lor (Z.shiftl hi 8) lo = 256 * hi + lo.
Proof.
  intros Hlo.
  assert (Hdisj : Z.land (Z.shiftl hi 8) lo = 0).
  { apply Z.bits_inj'. intros n Hn.
    rewrite Z.land_spec, Z.bits_0.
    destruct (Z_lt_ge_dec n 8) as [Hlt | Hge].
    - rewrite Z.shiftl_spec_low by lia. reflexivity.
    - assert (Hhigh : Z.testbit lo n = false).
      { destruct (Z.eq_dec lo 0) as [-> | Hnz]; [apply Z.bits_0 |].
        apply Z.bits_above_log2; [lia |].
        apply Z.log2_lt_pow2; [lia |].
        assert (2 ^ 8 <= 2 ^ n) by (apply Z.pow_le_mono_r; lia).
        change (2 ^ 8) with 256 in *. lia. }
      rewrite Hhigh. apply andb_false_r. }
  rewrite <- Z.lxor_lor by exact Hdisj.
  rewrite <- Z.add_nocarry_lxor by exact Hdisj.
  rewrite Z.shiftl_mul_pow2 by lia.
  change (2 ^ 8) with 256. lia.
Qed.

Lemma choose_index_buffer (table key : slice) :
  choose_index table key = unpack16be [nth 0 key x00; nth 1 key x00].
Proof.
  unfold choose_index, memmove, memset.
  destruct key as [| a [| b rest]]; reflexivity.
Qed.

(** C4: [choose_index] is the 16-bit big-endian integer made of the first
    two key bytes, a missing byte counting as zero; it lies in 0..65535
    and does not depend on the table. *)
Theorem choose_index_be16_prefix (table key : slice) :
  choose_index table key = 256 * byte_at key 0 + byte_at key 1 /\
  0 <= choose_index table key <= 65535 /\
  (forall table' : slice, choose_index table' key = choose_index table key).
Proof.
  assert (Hval : forall t, choose_index t key = 256 * byte_at key 0 + byte_at key 1).
  { intros t. rewrite choose_index_buffer. unfold unpack16be.
    rewrite lor_shiftl_8 by apply byte_at_range.
    reflexivity. }
  pose proof (byte_at_range key 0) as H0.
  pose proof (byte_at_range key 1) as H1.
  split; [apply Hval |].
  split; [rewrite Hval; lia |].
  intros t. rewrite !Hval. reflexivity.
Qed.

Section Properties.
Context `{C : Collaborators}.

(** ** The handler monad *)

Lemma bind_done {A B} (m : M A) (f : A -> M B) (d d1 : daemon) a tr :
  m d = Done a d1 tr ->
  bind m f d =
    match f a d1 with
    | Done b d2 tr2 => Done b d2 (tr ++ tr2)
    | Stopped s tr2 => Stopped s (tr ++ tr2)
    end.
Proof. intros H. unfold bind. rewrite H. reflexivity. Qed.

Lemma send_trace (id : comm_id) (msg : message) (d : daemon) :
  trace_of (send id msg d) = [BusSend id msg].
Proof.
  unfold send. destruct (bb_send (m_busybee d) id msg) as [rc b].
  destruct rc; reflexivity.
Qed.

Lemma send_state (id : comm_id) (msg : message) (d d' : daemon) :
  state_of (send id msg d) = Some d' -> same_but_bus d d'.
Proof.
  unfold send. destruct (bb_send (m_busybee d) id msg) as [rc b].
  destruct rc; simpl; intros H; inversion H; exists b; reflexivity.
Qed.

(** Sending and then returning: the trace is the one send, and the state
    changes at most in the bus. *)
Lemma send_then_ret (id : comm_id) (msg : message) (d : daemon) :
  trace_of (bind (send id msg) (fun _ => ret tt) d) = [BusSend id msg] /\
  (forall d',
      state_of (bind (send id msg) (fun _ => ret tt) d) = Some d' ->
      same_but_bus d d').
Proof.
  unfold bind, ret.
  pose proof (send_trace id msg d) as Ht.
  pose proof (send_state id msg d) as Hs.
  destruct (send id msg d) as [ok d1 tr | s tr]; simpl in *.
  - rewrite app_nil_r. split; [exact Ht |].
    intros d' H. apply Hs. exact H.
  - split; [exact Ht |]. intros d' H. discriminate H.
Qed.

(** ** The coordinator callback *)

(** C10: with no configuration installed, [has_id] answers false,
    [address] answers the default location and [is_steady_state] answers
    false, for every id. *)
Theorem callbacks_without_config (d : daemon) (id : comm_id) :
  m_config d = None ->
  has_id d id = false /\
  address d id = location_default /\
  is_steady_state d id = false.
Proof.
  intros Hnull. unfold has_id, address, is_steady_state.
  rewrite Hnull. repeat split.
Qed.

(** ** Migration *)

(** C7: a migration SYN is answered with [KVS_MIGRATE_ACK] carrying the
    partition and the installed version exactly when the installed version
    is at least the target; otherwise nothing is sent and the state is
    unchanged.  The reply changes at most the bus. *)
Theorem migrate_syn_ack_iff_version
    (d : daemon) (cfg : configuration) (id : comm_id)
    (key : partition_id) (v : version_id) (remain : nat) :
  m_config d = Some cfg ->
  let r := process_migrate_syn id (Unpacked (key, v) remain) d in
  (trace_of r = [BusSend id (migrate_ack key (version cfg))] <-> v <= version cfg) /\
  (v <= version cfg -> forall d', state_of r = Some d' -> same_but_bus d d') /\
  (~ v <= version cfg -> r = Done tt d []).
Proof.
  intros Hcfg r. subst r.
  unfold process_migrate_syn.
  rewrite (bind_done _ _ d d (Some cfg) []) by (unfold get_config; rewrite Hcfg; reflexivity).
  rewrite (bind_done _ _ d d cfg []) by reflexivity.
  destruct (version cfg >=? v) eqn:Hge.
  - apply Z.geb_le in Hge.
    destruct (send_then_ret id (migrate_ack key (version cfg)) d) as [Ht Hs].
    fold (migrate_ack key (version cfg)).
    destruct (bind (send id (migrate_ack key (version cfg))) (fun _ => ret tt) d)
      as [u d1 tr | s tr]; simpl in *; subst tr.
    + split; [ tauto |]. split; [| lia ].
      intros _ d' H. apply Hs. exact H.
    + split; [ tauto |]. split; [| lia ].
      intros _ d' H. discriminate H.
  - assert (Hlt : ~ v <= version cfg).
    { intros Hle. apply Z.geb_le in Hle. congruence. }
    simpl. split; [| split ].
    + split; [ discriminate | intros; contradiction ].
    + intros; contradiction.
    + intros _. reflexivity.
Qed.

(** ** Responses without a replicator *)

(** C9: a raw read or write response whose nonce has no replicator in the
    daemon's map is dropped: the state is unchanged, no storage operation
    runs and nothing is sent. *)
Theorem unmatched_response_dropped
    (d : daemon) (id : comm_id) (nonce : Z) (rc : consus_returncode)
    (timestamp : Z) (value : slice) (owner1 owner2 : comm_id) (remain : nat) :
  (m_repl_rd d !! nonce = None ->
   process_raw_rd_resp id (Unpacked (nonce, rc, timestamp, value, owner1) remain) d
   = Done tt d []) /\
  (m_repl_wr d !! nonce = None ->
   process_raw_wr_resp id (Unpacked (nonce, rc, owner1, owner2) remain) d
   = Done tt d []).
Proof.
  split; intros Hnone; simpl; rewrite Hnone; reflexivity.
Qed.


(** ** Raw reads and writes *)

Lemma raw_rd_guard_passed
    (d : daemon) (cfg : configuration) (id : comm_id)
    (nonce : Z) (table key : slice) (timestamp : Z) (remain : nat) :
  m_config d = Some cfg ->
  choose_index table key <> CONSUS_MAX_REPLICATION_FACTOR ->
  trace_of (process_raw_rd id (Unpacked (nonce, table, key, timestamp) remain) d)
  = [DataGet table key timestamp;
     BusSend id (raw_rd_resp nonce
                   (fst (dl_get (m_data d) table key timestamp))
                   (fst (cfg_map cfg (us_dc (m_us d)) (choose_index table key))))].
Proof.
  intros Hcfg Hne. unfold process_raw_rd.
  rewrite (bind_done _ _ d d (Some cfg) []) by (unfold get_config; rewrite Hcfg; reflexivity).
  apply Z.eqb_neq in Hne. rewrite Hne.
  rewrite (bind_done _ _ d d cfg []) by reflexivity.
  rewrite (bind_done _ _ d d (m_us d) []) by reflexivity.
  destruct (cfg_map cfg (us_dc (m_us d)) (choose_index table key)) as [owner1 owner2].
  unfold data_get, raw_rd_resp.
  unfold bind at 1.
  destruct (dl_get (m_data d) table key timestamp) as [[[rc ts] value] s].
  simpl fst.
  set (msg := mk_message KVS_RAW_RD_RESP _).
  destruct (send_then_ret id msg (set_data s d)) as [Ht _].
  destruct (bind (send id msg) (fun _ => ret tt) (set_data s d)) as [u d1 tr | st tr];
    simpl in *; subst tr; reflexivity.
Qed.

Lemma raw_rd_guard_hit
    (d : daemon) (id : comm_id)
    (nonce : Z) (table key : slice) (timestamp : Z) (remain : nat) :
  choose_index table key = CONSUS_MAX_REPLICATION_FACTOR ->
  process_raw_rd id (Unpacked (nonce, table, key, timestamp) remain) d = Done tt d [].
Proof.
  intros Heq. unfold process_raw_rd.
  rewrite (bind_done _ _ d d (m_config d) []) by reflexivity.
  apply Z.eqb_eq in Heq. rewrite Heq. reflexivity.
Qed.

(** The storage call of a raw write: [del] under the tombstone flag,
    [put] otherwise. *)
Lemma raw_wr_guard_passed
    (d : daemon) (cfg : configuration) (id : comm_id)
    (nonce flags : Z) (table key : slice) (timestamp : Z) (value : slice)
    (remain : nat) :
  m_config d = Some cfg ->
  choose_index table key <> CONSUS_MAX_REPLICATION_FACTOR ->
  let owners := cfg_map cfg (us_dc (m_us d)) (choose_index table key) in
  trace_of (process_raw_wr id
              (Unpacked (nonce, flags, table, key, timestamp, value) remain) d)
  = if Z.land CONSUS_WRITE_TOMBSTONE flags =? 0
    then [DataPut table key timestamp value;
          BusSend id (raw_wr_resp nonce
                        (fst (dl_put (m_data d) table key timestamp value)) owners)]
    else [DataDel table key timestamp;
          BusSend id (raw_wr_resp nonce
                        (fst (dl_del (m_data d) table key timestamp)) owners)].
Proof.
  intros Hcfg Hne owners. subst owners. unfold process_raw_wr.
  rewrite (bind_done _ _ d d (Some cfg) []) by (unfold get_config; rewrite Hcfg; reflexivity).
  apply Z.eqb_neq in Hne. rewrite Hne.
  rewrite (bind_done _ _ d d cfg []) by reflexivity.
  rewrite (bind_done _ _ d d (m_us d) []) by reflexivity.
  destruct (cfg_map cfg (us_dc (m_us d)) (choose_index table key)) as [owner1 owner2].
  unfold raw_wr_resp. cbn [fst snd].
  destruct (Z.land CONSUS_WRITE_TOMBSTONE flags =? 0); cbn [negb].
  - destruct (dl_put (m_data d) table key timestamp value) as [rc s] eqn:Hput.
    rewrite (bind_done _ _ d (set_data s d) rc [DataPut table key timestamp value])
      by (unfold data_put; rewrite Hput; reflexivity).
    cbn [fst].
    set (msg := mk_message KVS_RAW_WR_RESP _).
    destruct (send_then_ret id msg (set_data s d)) as [Ht _].
    destruct (bind (send id msg) (fun _ => ret tt) (set_data s d)) as [u d1 tr | st tr];
      simpl in *; subst tr; reflexivity.
  - destruct (dl_del (m_data d) table key timestamp) as [rc s] eqn:Hdel.
    rewrite (bind_done _ _ d (set_data s d) rc [DataDel table key timestamp])
      by (unfold data_del; rewrite Hdel; reflexivity).
    cbn [fst].
    set (msg := mk_message KVS_RAW_WR_RESP _).
    destruct (send_then_ret id msg (set_data s d)) as [Ht _].
    destruct (bind (send id msg) (fun _ => ret tt) (set_data s d)) as [u d1 tr | st tr];
      simpl in *; subst tr; reflexivity.
Qed.

Lemma raw_wr_guard_hit
    (d : daemon) (id : comm_id)
    (nonce flags : Z) (table key : slice) (timestamp : Z) (value : slice)
    (remain : nat) :
  choose_index table key = CONSUS_MAX_REPLICATION_FACTOR ->
  process_raw_wr id (Unpacked (nonce, flags, table, key, timestamp, value) remain) d
  = Done tt d [].
Proof.
  intros Heq. unfold process_raw_wr.
  rewrite (bind_done _ _ d d (m_config d) []) by reflexivity.
  apply Z.eqb_eq in Heq. rewrite Heq. reflexivity.
Qed.

(** The sibling guard: [choose_replicas] gives up on the index
    [CONSUS_KVS_PARTITIONS], the size of the partition map. *)
Lemma choose_replicas_guard (d : daemon) (table key : slice) :
  choose_index table key = CONSUS_KVS_PARTITIONS ->
  choose_replicas table key d = Done ([], 5) d [].
Proof.
  intros Heq. unfold choose_replicas.
  apply Z.eqb_eq in Heq. rewrite Heq. reflexivity.
Qed.

(** C1: a well-formed raw read or write is dropped, with the state
    untouched and no event, exactly when [choose_index] returns
    [CONSUS_MAX_REPLICATION_FACTOR]; the number of partitions plays no
    part in the decision. *)
Theorem raw_request_dropped_iff_factor
    (d : daemon) (id : comm_id)
    (nonce flags : Z) (table key : slice) (timestamp : Z) (value : slice)
    (remain : nat) :
  (process_raw_rd id (Unpacked (nonce, table, key, timestamp) remain) d = Done tt d []
   <-> choose_index table key = CONSUS_MAX_REPLICATION_FACTOR) /\
  (process_raw_wr id (Unpacked (nonce, flags, table, key, timestamp, value) remain) d
   = Done tt d []
   <-> choose_index table key = CONSUS_MAX_REPLICATION_FACTOR).
Proof.
  destruct (Z.eq_dec (choose_index table key) CONSUS_MAX_REPLICATION_FACTOR)
    as [Heq | Hne].
  - split; split; intros _; try exact Heq.
    + apply raw_rd_guard_hit. exact Heq.
    + apply raw_wr_guard_hit. exact Heq.
  - destruct (m_config d) as [cfg |] eqn:Hcfg.
    + split; split; intros H; try contradiction; exfalso.
      * pose proof (raw_rd_guard_passed d cfg id nonce table key timestamp remain
                      Hcfg Hne) as Ht.
        rewrite H in Ht. discriminate Ht.
      * pose proof (raw_wr_guard_passed d cfg id nonce flags table key timestamp
                      value remain Hcfg Hne) as Ht.
        rewrite H in Ht. cbv zeta in Ht.
        destruct (Z.land CONSUS_WRITE_TOMBSTONE flags =? 0); discriminate Ht.
    + assert (Hb : (choose_index table key =? CONSUS_MAX_REPLICATION_FACTOR) = false)
        by (apply Z.eqb_neq; exact Hne).
      split; split; intros H; try contradiction; exfalso.
      * unfold process_raw_rd in H.
        rewrite (bind_done _ _ d d None []) in H
          by (unfold get_config; rewrite Hcfg; reflexivity).
        rewrite Hb in H. discriminate H.
      * unfold process_raw_wr in H.
        rewrite (bind_done _ _ d d None []) in H
          by (unfold get_config; rewrite Hcfg; reflexivity).
        rewrite Hb in H. discriminate H.
Qed.

(** C5: for a well-formed raw read on a daemon with a configuration, when
    the index differs from [CONSUS_MAX_REPLICATION_FACTOR] the daemon calls
    [get] once and sends the sender one [KVS_RAW_RD_RESP] with the nonce,
    the return code, the actual timestamp, the value and the first owner of
    the partition in this data center; when the index equals that constant
    the request is dropped. *)
Theorem raw_rd_reply
    (d : daemon) (cfg : configuration) (id : comm_id)
    (nonce : Z) (table key : slice) (timestamp : Z) (remain : nat) :
  m_config d = Some cfg ->
  let index := choose_index table key in
  let r := process_raw_rd id (Unpacked (nonce, table, key, timestamp) remain) d in
  (index <> CONSUS_MAX_REPLICATION_FACTOR ->
   trace_of r =
     [DataGet table key timestamp;
      BusSend id (raw_rd_resp nonce
                    (fst (dl_get (m_data d) table key timestamp))
                    (fst (cfg_map cfg (us_dc (m_us d)) index)))]) /\
  (index = CONSUS_MAX_REPLICATION_FACTOR -> r = Done tt d []).
Proof.
  intros Hcfg index r. split.
  - intros Hne. apply raw_rd_guard_passed; assumption.
  - intros Heq. apply raw_rd_guard_hit. exact Heq.
Qed.

(** C6: for a well-formed raw write on a daemon with a configuration, when
    the index differs from [CONSUS_MAX_REPLICATION_FACTOR] the daemon calls
    [del] if the tombstone bit is set in the flags and [put] otherwise, and
    sends the sender one [KVS_RAW_WR_RESP] with the nonce, the storage
    return code and the two owners; when the index equals that constant
    the request is dropped. *)
Theorem raw_wr_reply
    (d : daemon) (cfg : configuration) (id : comm_id)
    (nonce flags : Z) (table key : slice) (timestamp : Z) (value : slice)
    (remain : nat) :
  m_config d = Some cfg ->
  let index := choose_index table key in
  let owners := cfg_map cfg (us_dc (m_us d)) index in
  let r := process_raw_wr id
             (Unpacked (nonce, flags, table, key, timestamp, value) remain) d in
  (index <> CONSUS_MAX_REPLICATION_FACTOR ->
   Z.land CONSUS_WRITE_TOMBSTONE flags <> 0 ->
   trace_of r =
     [DataDel table key timestamp;
      BusSend id (raw_wr_resp nonce
                    (fst (dl_del (m_data d) table key timestamp)) owners)]) /\
  (index <> CONSUS_MAX_REPLICATION_FACTOR ->
   Z.land CONSUS_WRITE_TOMBSTONE flags = 0 ->
   trace_of r =
     [DataPut table key timestamp value;
      BusSend id (raw_wr_resp nonce
                    (fst (dl_put (m_data d) table key timestamp value)) owners)]) /\
  (index = CONSUS_MAX_REPLICATION_FACTOR -> r = Done tt d []).
Proof.
  intros Hcfg index owners r.
  split; [| split ].
  - intros Hne Hflag. subst r owners index.
    rewrite (raw_wr_guard_passed d cfg) by assumption.
    apply Z.eqb_neq in Hflag. rewrite Hflag. reflexivity.
  - intros Hne Hflag. subst r owners index.
    rewrite (raw_wr_guard_passed d cfg) by assumption.
    apply Z.eqb_eq in Hflag. rewrite Hflag. reflexivity.
  - intros Heq. apply raw_wr_guard_hit. exact Heq.
Qed.

(** ** Lock operations *)

(** C2 (amended): a well-formed lock operation is a no-op: whatever the
    table, key, transaction, lock type and operation, the daemon keeps no
    lock record and sends the sender one [KVS_LOCK_OP_RESP] with the nonce
    and [CONSUS_SUCCESS]; the state changes at most in the bus. *)
Theorem lock_op_always_succeeds
    (d : daemon) (id : comm_id) (nonce : Z) (table key : slice)
    (txid : transaction_id) (type : lock_t) (op : lock_op) (remain : nat) :
  let r := process_lock_op id (Unpacked (nonce, table, key, txid, type, op) remain) d in
  trace_of r = [BusSend id (lock_op_resp nonce CONSUS_SUCCESS)] /\
  lock_reply (trace_of r) = Some CONSUS_SUCCESS /\
  (forall d', state_of r = Some d' -> same_but_bus d d').
Proof.
  intros r. subst r. unfold process_lock_op.
  fold (lock_op_resp nonce CONSUS_SUCCESS).
  destruct (send_then_ret id (lock_op_resp nonce CONSUS_SUCCESS) d) as [Ht Hs].
  rewrite Ht. repeat split. exact Hs.
Qed.

(** ** Installing configurations *)

(** C3 (amended): [new_config] compares no versions.  A configuration that
    unpacks without error and without trailing bytes is installed whatever
    its version, the data center of this server is refreshed from it, the
    migration thread is notified and the callback returns true; a blob
    with trailing bytes or an unpack error leaves the daemon unchanged and
    the callback returns false. *)
Theorem new_config_installs_any_version (d : daemon) (c : configuration) :
  new_config (Unpacked c 0) d = Done true (install_config c d) [] /\
  m_config (install_config c d) = Some c /\
  us_dc (m_us (install_config c d)) = get_data_center c (us_id (m_us d)) /\
  m_have_new_config (install_config c d) = true /\
  (forall remain, new_config (Unpacked c (S remain)) d = Done false d []) /\
  new_config Unpack_error d = Done false d [].
Proof. repeat split. Qed.

(** ** Return codes of the bus *)

Lemma loop_skips (pre rest : list recv_result) (d : daemon) :
  Forall (fun q => In (recv_rc q) [BUSYBEE_DISRUPTED; BUSYBEE_INTERRUPTED]) pre ->
  loop (pre ++ rest) d = loop rest d.
Proof.
  induction 1 as [| q pre Hq _ IH]; [reflexivity |].
  simpl app. cbn [loop].
  destruct Hq as [Hq | [Hq | []]]; rewrite <- Hq; exact IH.
Qed.

(** C8 (amended): in [loop], a [recv] that reports DISRUPTED or
    INTERRUPTED is skipped, one that reports SHUTDOWN makes the loop
    return, and one that reports POLLFAILED, ADDFDFAIL, TIMEOUT or EXTERNAL
    aborts the process.  In [send], DISRUPTED yields false, and every
    other failure, SHUTDOWN and INTERRUPTED included, aborts the
    process. *)
Theorem bus_result_handling
    (pre rest : list recv_result) (r : recv_result) (d : daemon)
    (id : comm_id) (msg : message) :
  Forall (fun q => In (recv_rc q) [BUSYBEE_DISRUPTED; BUSYBEE_INTERRUPTED]) pre ->
  loop (pre ++ rest) d = loop rest d /\
  (recv_rc r = BUSYBEE_SHUTDOWN ->
   loop (pre ++ r :: rest) d = Done Loop_returned d []) /\
  (In (recv_rc r) [BUSYBEE_POLLFAILED; BUSYBEE_ADDFDFAIL;
                   BUSYBEE_TIMEOUT; BUSYBEE_EXTERNAL] ->
   loop (pre ++ r :: rest) d = Stopped Abort []) /\
  (fst (bb_send (m_busybee d) id msg) = BUSYBEE_DISRUPTED ->
   exists b, send id msg d = Done false (set_busybee b d) [BusSend id msg]) /\
  (In (fst (bb_send (m_busybee d) id msg))
      [BUSYBEE_SHUTDOWN; BUSYBEE_INTERRUPTED; BUSYBEE_POLLFAILED;
       BUSYBEE_ADDFDFAIL; BUSYBEE_TIMEOUT; BUSYBEE_EXTERNAL] ->
   send id msg d = Stopped Abort [BusSend id msg]).
Proof.
  intros Hpre.
  split; [apply loop_skips; exact Hpre |].
  split; [| split; [| split ]].
  - intros Hrc. rewrite loop_skips by exact Hpre.
    cbn [loop]. rewrite Hrc. reflexivity.
  - intros Hrc. rewrite loop_skips by exact Hpre.
    cbn [loop]. simpl in Hrc.
    destruct Hrc as [H | [H | [H | [H | []]]]]; rewrite <- H; reflexivity.
  - unfold send. destruct (bb_send (m_busybee d) id msg) as [rc b].
    simpl. intros ->. exists b. reflexivity.
  - unfold send. destruct (bb_send (m_busybee d) id msg) as [rc b].
    simpl.
    intros [H | [H | [H | [H | [H | [H | []]]]]]]; rewrite <- H; reflexivity.
Qed.

End Properties.

(** * The handlers on concrete inputs *)

(** Without a configuration the three queries answer their defaults. *)
Lemma callbacks_without_config_witness :
  m_config (sample_daemon None []) = None /\
  has_id (sample_daemon None []) 1 = false /\
  address (sample_daemon None []) 1 = location_default /\
  is_steady_state (sample_daemon None []) 1 = false.
Proof.
  split; [reflexivity |].
  apply (callbacks_without_config (sample_daemon None []) 1).
  reflexivity.
Defined.

(** A destination at version 18 acknowledges a SYN for version 18. *)
Lemma migrate_syn_ack_iff_version_witness :
  m_config (sample_daemon (Some (sample_config 18)) []) = Some (sample_config 18) /\
  trace_of (process_migrate_syn 5 (Unpacked (3, 18) 0%nat)
              (sample_daemon (Some (sample_config 18)) []))
  = [BusSend 5 (migrate_ack 3 18)].
Proof.
  split; [reflexivity |].
  pose proof (migrate_syn_ack_iff_version
                (sample_daemon (Some (sample_config 18)) [])
                (sample_config 18) 5 3 18 0%nat eq_refl) as H.
  cbv zeta in H. destruct H as [[_ Hack] _].
  apply Hack. apply Z.le_refl.
Defined.

(** Responses for nonce 3 reach a daemon without replicators. *)
Lemma unmatched_response_dropped_witness :
  m_repl_rd (sample_daemon None []) !! 3 = None /\
  m_repl_wr (sample_daemon None []) !! 3 = None /\
  process_raw_rd_resp (C := sample_collaborators) 5
    (Unpacked (3, CONSUS_SUCCESS, 10, ["x"%byte], 1) 0%nat) (sample_daemon None [])
  = Done tt (sample_daemon None []) [] /\
  process_raw_wr_resp (C := sample_collaborators) 5
    (Unpacked (3, CONSUS_SUCCESS, 1, 2) 0%nat) (sample_daemon None [])
  = Done tt (sample_daemon None []) [].
Proof.
  destruct (unmatched_response_dropped (C := sample_collaborators)
              (sample_daemon None []) 5 3 CONSUS_SUCCESS 10 ["x"%byte] 1 2 0%nat)
    as [Hrd Hwr].
  split; [reflexivity |]. split; [reflexivity |].
  split; [apply Hrd | apply Hwr]; reflexivity.
Defined.

(** With replication factor 9 and 256 partitions, the key 00 09 has the
    in-range index 9, and raw requests for it are dropped. *)
Lemma raw_request_dropped_iff_factor_witness :
  index_in_range (X := sample_externals) (choose_index ["t"%byte] [x00; x09]) = true /\
  process_raw_rd 5 (Unpacked (3, ["t"%byte], [x00; x09], 20) 0%nat)
    (sample_daemon (Some (sample_config 4)) [])
  = Done tt (sample_daemon (Some (sample_config 4)) []) [] /\
  process_raw_wr 5 (Unpacked (3, 0, ["t"%byte], [x00; x09], 20, ["y"%byte]) 0%nat)
    (sample_daemon (Some (sample_config 4)) [])
  = Done tt (sample_daemon (Some (sample_config 4)) []) [].
Proof.
  destruct (raw_request_dropped_iff_factor
              (sample_daemon (Some (sample_config 4)) []) 5 3 0
              ["t"%byte] [x00; x09] 20 ["y"%byte] 0%nat)
    as [[_ Hrd] [_ Hwr]].
  split; [reflexivity |].
  split; [apply Hrd | apply Hwr]; reflexivity.
Defined.

(** The raw read of key 00 09, whose index 9 is in range, gets no reply. *)
Lemma raw_rd_reply_witness :
  m_config (sample_daemon (Some (sample_config 4)) []) = Some (sample_config 4) /\
  index_in_range (X := sample_externals) (choose_index ["t"%byte] [x00; x09]) = true /\
  process_raw_rd 5 (Unpacked (3, ["t"%byte], [x00; x09], 20) 0%nat)
    (sample_daemon (Some (sample_config 4)) [])
  = Done tt (sample_daemon (Some (sample_config 4)) []) [].
Proof.
  split; [reflexivity |]. split; [reflexivity |].
  pose proof (raw_rd_reply (sample_daemon (Some (sample_config 4)) [])
                (sample_config 4) 5 3 ["t"%byte] [x00; x09] 20 0%nat eq_refl) as H.
  cbv zeta in H. destruct H as [_ Hdrop].
  apply Hdrop. reflexivity.
Defined.

(** The raw write of key 00 09, whose index 9 is in range, gets no reply
    and stores nothing. *)
Lemma raw_wr_reply_witness :
  m_config (sample_daemon (Some (sample_config 4)) []) = Some (sample_config 4) /\
  index_in_range (X := sample_externals) (choose_index ["t"%byte] [x00; x09]) = true /\
  process_raw_wr 5 (Unpacked (3, 0, ["t"%byte], [x00; x09], 20, ["y"%byte]) 0%nat)
    (sample_daemon (Some (sample_config 4)) [])
  = Done tt (sample_daemon (Some (sample_config 4)) []) [].
Proof.
  split; [reflexivity |]. split; [reflexivity |].
  pose proof (raw_wr_reply (sample_daemon (Some (sample_config 4)) [])
                (sample_config 4) 5 3 0 ["t"%byte] [x00; x09] 20 ["y"%byte] 0%nat
                eq_refl) as H.
  cbv zeta in H. destruct H as [_ [_ Hdrop]].
  apply Hdrop. reflexivity.
Defined.

(** After a disrupted and an interrupted [recv], a shutdown makes the loop
    return; an interrupted [send] aborts. *)
Lemma bus_result_handling_witness :
  Forall (fun q => In (recv_rc q) [BUSYBEE_DISRUPTED; BUSYBEE_INTERRUPTED])
         [recv_code BUSYBEE_DISRUPTED; recv_code BUSYBEE_INTERRUPTED] /\
  loop (C := sample_collaborators)
    ([recv_code BUSYBEE_DISRUPTED; recv_code BUSYBEE_INTERRUPTED]
       ++ recv_code BUSYBEE_SHUTDOWN :: [recv_code BUSYBEE_TIMEOUT])
    (sample_daemon None [BUSYBEE_INTERRUPTED])
  = Done Loop_returned (sample_daemon None [BUSYBEE_INTERRUPTED]) [] /\
  send 5 (lock_op_resp 3 CONSUS_SUCCESS) (sample_daemon None [BUSYBEE_INTERRUPTED])
  = Stopped Abort [BusSend 5 (lock_op_resp 3 CONSUS_SUCCESS)].
Proof.
  assert (Hpre : Forall (fun q => In (recv_rc q) [BUSYBEE_DISRUPTED; BUSYBEE_INTERRUPTED])
                        [recv_code BUSYBEE_DISRUPTED; recv_code BUSYBEE_INTERRUPTED]).
  { constructor; [left; reflexivity |].
    constructor; [right; left; reflexivity |].
    constructor. }
  destruct (bus_result_handling (C := sample_collaborators)
              [recv_code BUSYBEE_DISRUPTED; recv_code BUSYBEE_INTERRUPTED]
              [recv_code BUSYBEE_TIMEOUT] (recv_code BUSYBEE_SHUTDOWN)
              (sample_daemon None [BUSYBEE_INTERRUPTED])
              5 (lock_op_resp 3 CONSUS_SUCCESS) Hpre)
    as [_ [Hshut [_ [_ Hsend]]]].
  split; [exact Hpre |].
  split; [apply Hshut; reflexivity |].
  apply Hsend. right. left. reflexivity.
Defined.

(** * Where the specification and the daemon part ways *)

(** C3: a daemon at version 5 that is handed a configuration of version 3
    installs it. *)
Lemma stale_config_is_installed : ~ @ignores_stale_configs sample_externals.
Proof.
  intros H.
  specialize (H (sample_daemon (Some (sample_config 5)) [])
                (sample_config 5) (sample_config 3) 0%nat eq_refl).
  assert (Hle : version (sample_config 3) <= version (sample_config 5))
    by (simpl; lia).
  specialize (H Hle).
  apply (f_equal (fun o : option (@daemon sample_externals) =>
                    match o with
                    | Some d => option_map version (m_config d)
                    | None => None
                    end)) in H.
  simpl in H. discriminate H.
Qed.

(** C2: after transaction 1 acquired the lock on ("t", "k"), an acquire
    by transaction 2 is still answered with success. *)
Lemma lock_op_is_not_cas : ~ @lock_op_is_cas sample_externals.
Proof.
  intros H.
  specialize (H [sample_lock_request 1 LOCK_ACQUIRE]
                (sample_lock_request 2 LOCK_ACQUIRE)
                (sample_daemon None []) (sample_daemon None [])
                [BusSend 5 (lock_op_resp 3 CONSUS_SUCCESS)]
                eq_refl eq_refl).
  destruct H as [Hcas _].
  specialize (Hcas eq_refl).
  vm_compute in Hcas. discriminate Hcas.
Qed.

(** C8: a [send] on which the bus reports INTERRUPTED aborts the process. *)
Lemma interrupted_send_aborts :
  ~ @bus_results_as_specified sample_externals sample_collaborators.
Proof.
  intros (_ & _ & _ & H & _).
  specialize (H (sample_daemon None [BUSYBEE_INTERRUPTED]) 5
                (lock_op_resp 3 CONSUS_SUCCESS)).
  assert (Hrc : fst (bb_send (m_busybee (sample_daemon None [BUSYBEE_INTERRUPTED]))
                       5 (lock_op_resp 3 CONSUS_SUCCESS)) = BUSYBEE_DISRUPTED \/
                fst (bb_send (m_busybee (sample_daemon None [BUSYBEE_INTERRUPTED]))
                       5 (lock_op_resp 3 CONSUS_SUCCESS)) = BUSYBEE_INTERRUPTED)
    by (right; reflexivity).
  apply (H Hrc [BusSend 5 (lock_op_resp 3 CONSUS_SUCCESS)]).
  reflexivity.
Qed.

(** * Further properties *)

(** ** Splitting a dump into lines *)

Lemma find_first_of_none (c : byte) (s : list byte) :
  find_first_of c s = None -> ~ In c s.
Proof.
  induction s as [| x rest IH]; simpl; [tauto |].
  destruct (Byte.eqb x c) eqn:Hx; [discriminate |].
  destruct (find_first_of c rest); [discriminate |].
  intros _ [Heq | Hin].
  - apply Byte.eqb_false in Hx. contradiction.
  - apply IH; [reflexivity | exact Hin].
Qed.

Lemma find_first_of_some (c : byte) (s : list byte) (idx : nat) :
  find_first_of c s = Some idx ->
  s = firstn idx s ++ c :: skipn (idx + 1) s /\ ~ In c (firstn idx s).
Proof.
  revert idx. induction s as [| x rest IH]; simpl; [discriminate |].
  intros idx. destruct (Byte.eqb x c) eqn:Hx.
  - intros [= <-]. apply Byte.byte_dec_bl in Hx. subst x.
    simpl. split; [reflexivity | tauto].
  - destruct (find_first_of c rest) as [j |]; [| discriminate].
    intros [= <-]. destruct (IH j eq_refl) as [Hsplit Hfree].
    simpl. split.
    + f_equal. exact Hsplit.
    + intros [Heq | Hin]; [| contradiction].
      apply Byte.eqb_false in Hx. contradiction.
Qed.

Lemma substr_prefix (s : list byte) (idx : nat) : substr s 0 idx = firstn idx s.
Proof. reflexivity. Qed.

Lemma substr_suffix (s : list byte) (pos : nat) :
  substr s pos (length s) = skipn pos s.
Proof.
  unfold substr. apply firstn_all2.
  rewrite length_skipn. lia.
Qed.

Lemma split_loop_nil (fuel : nat) (v : list (list byte)) : split_loop fuel [] v = v.
Proof. destruct fuel; reflexivity. Qed.

Lemma join_lines_app (v w : list (list byte)) :
  join_lines (v ++ w) = join_lines v ++ join_lines w.
Proof. unfold join_lines. rewrite map_app, concat_app. reflexivity. Qed.

Lemma join_lines_one (l : list byte) : join_lines [l] = l ++ [newline].
Proof. unfold join_lines. simpl. apply app_nil_r. Qed.

Lemma last_in (s : list byte) (d : byte) : s <> [] -> In (List.last s d) s.
Proof.
  induction s as [| x rest IH]; [contradiction |].
  intros _. destruct rest as [| y rest']; [left; reflexivity |].
  right. apply IH. discriminate.
Qed.

Lemma last_after (p rest : list byte) (d : byte) :
  rest <> [] -> List.last (p ++ rest) d = List.last rest d.
Proof.
  intros Hne. induction p as [| x p IH]; [reflexivity |].
  simpl app. destruct (p ++ rest) as [| y q] eqn:Hq.
  - destruct p; [contradiction | discriminate].
  - exact IH.
Qed.

Lemma terminated_nonempty (s : list byte) :
  s <> [] ->
  terminated s = if Byte.eqb (List.last s x00) newline then s else s ++ [newline].
Proof. destruct s; [contradiction | reflexivity]. Qed.

Lemma terminated_no_newline (s : list byte) :
  s <> [] -> ~ In newline s -> terminated s = s ++ [newline].
Proof.
  intros Hne Hfree. rewrite terminated_nonempty by exact Hne.
  destruct (Byte.eqb (List.last s x00) newline) eqn:Hl; [| reflexivity].
  apply Byte.byte_dec_bl in Hl. exfalso. apply Hfree.
  rewrite <- Hl. apply last_in. exact Hne.
Qed.

Lemma terminated_after_newline (p rest : list byte) :
  terminated (p ++ newline :: rest) = p ++ newline :: terminated rest.
Proof.
  assert (Hne : p ++ newline :: rest <> []) by (destruct p; discriminate).
  rewrite terminated_nonempty by exact Hne.
  destruct rest as [| y r].
  - rewrite last_last. rewrite Byte.byte_dec_lb by reflexivity. reflexivity.
  - assert (Hr : y :: r <> []) by discriminate.
    rewrite (last_after p (newline :: y :: r)) by discriminate.
    change (List.last (newline :: y :: r) x00) with (List.last (y :: r) x00).
    rewrite terminated_nonempty by exact Hr.
    destruct (Byte.eqb (List.last (y :: r) x00) newline); [reflexivity |].
    rewrite <- app_assoc. reflexivity.
Qed.

(** One turn of the loop on a text that holds a newline. *)
Lemma split_loop_step (fuel : nat) (s : list byte) (v : list (list byte)) (idx : nat) :
  find_first_of newline s = Some idx ->
  split_loop (S fuel) s v
  = split_loop fuel (skipn (idx + 1) s) (v ++ [firstn idx s]).
Proof.
  intros Hfind. destruct s as [| x rest]; [discriminate |].
  cbn [split_loop]. rewrite Hfind.
  rewrite substr_prefix, substr_suffix. reflexivity.
Qed.

Lemma split_loop_last (fuel : nat) (s : list byte) (v : list (list byte)) :
  s <> [] -> find_first_of newline s = None ->
  split_loop (S fuel) s v = v ++ [s].
Proof.
  intros Hne Hfind. destruct s as [| x rest]; [contradiction |].
  cbn [split_loop]. rewrite Hfind. apply split_loop_nil.
Qed.

Lemma skipn_after_newline (s : list byte) (idx : nat) :
  find_first_of newline s = Some idx ->
  (length (skipn (idx + 1) s) < length s)%nat.
Proof.
  intros Hfind. apply find_first_of_some in Hfind. destruct Hfind as [Hs _].
  rewrite Hs at 2. rewrite length_app. simpl. lia.
Qed.

Lemma split_loop_joins (fuel : nat) :
  forall (s : list byte) (v : list (list byte)),
    (length s <= fuel)%nat ->
    join_lines (split_loop fuel s v) = join_lines v ++ terminated s.
Proof.
  induction fuel as [| fuel IH]; intros s v Hlen.
  - destruct s; [| simpl in Hlen; lia]. simpl. symmetry. apply app_nil_r.
  - destruct s as [| x rest] eqn:Hs; [simpl; symmetry; apply app_nil_r |].
    rewrite <- Hs in *. assert (Hne : s <> []) by (subst s; discriminate).
    clear Hs.
    destruct (find_first_of newline s) as [idx |] eqn:Hfind.
    + rewrite (split_loop_step fuel s v idx Hfind).
      pose proof (skipn_after_newline s idx Hfind) as Hshort.
      rewrite IH by lia.
      rewrite join_lines_app, join_lines_one.
      destruct (find_first_of_some newline s idx Hfind) as [Hsplit _].
      rewrite Hsplit at 3. rewrite terminated_after_newline.
      rewrite <- !app_assoc. reflexivity.
    + rewrite (split_loop_last fuel s v Hne Hfind).
      rewrite join_lines_app, join_lines_one.
      rewrite terminated_no_newline; [reflexivity | exact Hne |].
      apply find_first_of_none. exact Hfind.
Qed.

Lemma split_loop_lines (fuel : nat) :
  forall (s : list byte) (v : list (list byte)),
    Forall (fun l => ~ In newline l) v ->
    Forall (fun l => ~ In newline l) (split_loop fuel s v).
Proof.
  induction fuel as [| fuel IH]; intros s v Hv; [exact Hv |].
  destruct s as [| x rest] eqn:Hs; [exact Hv |].
  rewrite <- Hs in *. assert (Hne : s <> []) by (subst s; discriminate).
  clear Hs.
  destruct (find_first_of newline s) as [idx |] eqn:Hfind.
  - rewrite (split_loop_step fuel s v idx Hfind).
    apply IH. apply Forall_app. split; [exact Hv |].
    constructor; [| constructor].
    apply (find_first_of_some newline s idx Hfind).
  - rewrite (split_loop_last fuel s v Hne Hfind).
    apply Forall_app. split; [exact Hv |].
    constructor; [| constructor].
    apply find_first_of_none. exact Hfind.
Qed.

Lemma find_first_of_at (c : byte) (l rest : list byte) :
  ~ In c l -> find_first_of c (l ++ c :: rest) = Some (length l).
Proof.
  induction l as [| x l IH]; intros Hfree; simpl.
  - rewrite Byte.byte_dec_lb by reflexivity. reflexivity.
  - destruct (Byte.eqb x c) eqn:Hx.
    + apply Byte.byte_dec_bl in Hx. exfalso. apply Hfree. left. exact Hx.
    + rewrite IH; [reflexivity |]. intros Hin. apply Hfree. right. exact Hin.
Qed.

Lemma split_loop_of_join (ls : list (list byte)) :
  Forall (fun l => ~ In newline l) ls ->
  forall (fuel : nat) (v : list (list byte)),
    (length (join_lines ls) <= fuel)%nat ->
    split_loop fuel (join_lines ls) v = v ++ ls.
Proof.
  induction 1 as [| l ls Hl _ IH]; intros fuel v Hlen.
  - rewrite split_loop_nil. symmetry. apply app_nil_r.
  - change (join_lines (l :: ls)) with ((l ++ [newline]) ++ join_lines ls) in *.
    rewrite <- app_assoc in *. simpl app in *.
    rewrite length_app in Hlen. simpl in Hlen.
    destruct fuel as [| fuel]; [lia |].
    rewrite (split_loop_step fuel _ v (length l)) by (apply find_first_of_at; exact Hl).
    rewrite firstn_app, firstn_all, Nat.sub_diag. simpl firstn. rewrite app_nil_r.
    rewrite skipn_app.
    rewrite skipn_all2 by lia.
    replace (length l + 1 - length l)%nat with 1%nat by lia.
    simpl. rewrite IH by lia.
    rewrite <- app_assoc. reflexivity.
Qed.

Lemma split_loop_more (fuel : nat) :
  forall (s : list byte) (v : list (list byte)),
    (length s <= fuel)%nat -> split_loop (S fuel) s v = split_loop fuel s v.
Proof.
  induction fuel as [| fuel IH]; intros s v Hlen.
  - destruct s; [reflexivity | simpl in Hlen; lia].
  - destruct s as [| x rest] eqn:Hs; [reflexivity |].
    rewrite <- Hs in *. assert (Hne : s <> []) by (subst s; discriminate).
    clear Hs.
    destruct (find_first_of newline s) as [idx |] eqn:Hfind.
    + rewrite (split_loop_step (S fuel) s v idx Hfind).
      rewrite (split_loop_step fuel s v idx Hfind).
      pose proof (skipn_after_newline s idx Hfind) as Hshort.
      apply IH. lia.
    + rewrite !split_loop_last by assumption. reflexivity.
Qed.

Lemma split_loop_enough (s : list byte) (v : list (list byte)) (fuel : nat) :
  (length s <= fuel)%nat -> split_loop fuel s v = split_loop (length s) s v.
Proof.
  intros Hlen. replace fuel with (length s + (fuel - length s))%nat by lia.
  induction (fuel - length s)%nat as [| extra IH]; [rewrite Nat.add_0_r; reflexivity |].
  rewrite Nat.add_succ_r. rewrite split_loop_more by lia. exact IH.
Qed.

(** X1: When a dump is split and the lines are written back, each followed by
    a newline, the dump reappears with its last line closed; in
    particular an empty dump has no lines.  The loop needs no more than
    one turn per character: more turns change nothing. *)
Theorem split_by_newlines_join (s : list byte) :
  join_lines (split_by_newlines s) = terminated s /\
  (split_by_newlines s = [] <-> s = []) /\
  (forall fuel, (length s <= fuel)%nat -> split_loop fuel s [] = split_by_newlines s).
Proof.
  assert (Hjoin : join_lines (split_by_newlines s) = terminated s).
  { unfold split_by_newlines. rewrite split_loop_joins by lia. reflexivity. }
  split; [exact Hjoin |].
  split; [| intros fuel Hfuel; apply split_loop_enough; exact Hfuel ].
  split.
  - intros Hnil. rewrite Hnil in Hjoin.
    destruct s as [| x rest]; [reflexivity |].
    unfold terminated in Hjoin.
    destruct (Byte.eqb (List.last (x :: rest) x00) newline).
    + discriminate Hjoin.
    + destruct rest; discriminate Hjoin.
  - intros ->. reflexivity.
Qed.

(** X2: No line that [split_by_newlines] returns holds a newline, and there
    are as many lines as the dump, with its last line closed, has
    newlines. *)
Theorem split_by_newlines_lines (s : list byte) :
  Forall (fun l => ~ In newline l) (split_by_newlines s) /\
  length (split_by_newlines s) = count_occ Byte.byte_eq_dec (terminated s) newline.
Proof.
  assert (Hfree : Forall (fun l => ~ In newline l) (split_by_newlines s)).
  { apply split_loop_lines. constructor. }
  split; [exact Hfree |].
  assert (Hjoin : join_lines (split_by_newlines s) = terminated s).
  { unfold split_by_newlines. rewrite split_loop_joins by lia. reflexivity. }
  rewrite <- Hjoin. clear Hjoin.
  induction Hfree as [| l ls Hl _ IH]; [reflexivity |].
  change (join_lines (l :: ls)) with ((l ++ [newline]) ++ join_lines ls).
  rewrite !count_occ_app. simpl length. rewrite IH.
  rewrite (proj1 (count_occ_not_In Byte.byte_eq_dec l newline) Hl).
  simpl. destruct (Byte.byte_eq_dec newline newline); [lia | contradiction].
Qed.

(** X3: Splitting is the inverse of writing lines: lines without newlines,
    each written with a closing newline, are recovered exactly, empty
    lines included. *)
Theorem split_by_newlines_of_join (ls : list (list byte)) :
  Forall (fun l => ~ In newline l) ls ->
  split_by_newlines (join_lines ls) = ls.
Proof.
  intros Hfree. unfold split_by_newlines.
  rewrite (split_loop_of_join ls Hfree) by lia. reflexivity.
Qed.

(** ** Keys and partition indices *)

Lemma byte_of_Z_value (z : Z) :
  0 <= z <= 255 -> Z.of_N (Byte.to_N (byte_of_Z z)) = z.
Proof.
  intros Hz. unfold byte_of_Z.
  destruct (Byte.of_N (Z.to_N z)) as [b |] eqn:Hb.
  - apply Byte.to_of_N in Hb. rewrite Hb. lia.
  - apply Byte.of_N_None_iff in Hb. lia.
Qed.

Lemma byte_of_Z_byte (b : byte) : byte_of_Z (Z.of_N (Byte.to_N b)) = b.
Proof.
  unfold byte_of_Z. rewrite N2Z.id, Byte.of_to_N. reflexivity.
Qed.

Lemma choose_index_value (table key : slice) :
  choose_index table key = 256 * byte_at key 0 + byte_at key 1.
Proof.
  rewrite choose_index_buffer. unfold unpack16be.
  rewrite lor_shiftl_8 by apply byte_at_range.
  reflexivity.
Qed.

Lemma padded_prefix (key : slice) :
  firstn 2 (key ++ [x00; x00]) = [nth 0 key x00; nth 1 key x00].
Proof. destruct key as [| a [| b rest]]; reflexivity. Qed.

Lemma key_of_choose_index (table key : slice) :
  key_of_index (choose_index table key) = firstn 2 (key ++ [x00; x00]).
Proof.
  rewrite choose_index_value, padded_prefix. unfold key_of_index.
  pose proof (byte_at_range key 0) as H0.
  pose proof (byte_at_range key 1) as H1.
  replace ((256 * byte_at key 0 + byte_at key 1) / 256) with (byte_at key 0)
    by (apply (Z.div_unique _ 256 _ (byte_at key 1)); lia).
  replace ((256 * byte_at key 0 + byte_at key 1) mod 256) with (byte_at key 1)
    by (apply (Z.mod_unique _ 256 (byte_at key 0) _); lia).
  unfold byte_at. rewrite !byte_of_Z_byte. reflexivity.
Qed.

Lemma choose_index_of_key_value (table : slice) (n : Z) :
  0 <= n <= 65535 -> choose_index table (key_of_index n) = n.
Proof.
  intros Hn.
  rewrite choose_index_value. unfold key_of_index, byte_at. simpl nth.
  pose proof (Z.div_mod n 256 ltac:(lia)) as Hdm.
  pose proof (Z.mod_pos_bound n 256 ltac:(lia)) as Hmod.
  assert (Hdiv : 0 <= n / 256 <= 255).
  { split; [apply Z.div_pos; lia |].
    assert (n / 256 < 256) by (apply Z.div_lt_upper_bound; lia). lia. }
  rewrite !byte_of_Z_value by lia. lia.
Qed.

(** X4: Every value of 16 bits is the index of a key: [key_of_index n] is a
    two-byte key that [choose_index] maps to [n], under any table. *)
Theorem choose_index_of_key (table : slice) (n : Z) :
  0 <= n <= 65535 ->
  choose_index table (key_of_index n) = n /\ length (key_of_index n) = 2%nat.
Proof.
  intros Hn. split; [apply choose_index_of_key_value; exact Hn | reflexivity].
Qed.

(** X5: Two keys get the same index exactly when their first two bytes agree,
    a key shorter than two bytes being padded with zero bytes; the tables
    play no part.  So the empty key, the key 00 and the key 00 00 share
    index 0. *)
Theorem choose_index_same_prefix (t1 t2 k1 k2 : slice) :
  choose_index t1 k1 = choose_index t2 k2 <->
  firstn 2 (k1 ++ [x00; x00]) = firstn 2 (k2 ++ [x00; x00]).
Proof.
  split.
  - intros Heq. rewrite <- (key_of_choose_index t1 k1), <- (key_of_choose_index t2 k2).
    rewrite Heq. reflexivity.
  - intros Heq. rewrite !padded_prefix in Heq.
    rewrite !choose_index_buffer, Heq. reflexivity.
Qed.

Section FurtherProperties.
Context `{C : Collaborators}.

(** ** Replica choice *)

(** X6: With a configuration installed, [choose_replicas] keeps at most five
    replicas, each of them listed by the configuration's [hash] for the
    data center of this server and the key's index; it leaves the daemon
    as it is and calls neither the store nor the bus.  When [hash] fails
    or the index equals [CONSUS_KVS_PARTITIONS] no replica is kept. *)
Theorem choose_replicas_bounded
    (d : daemon) (cfg : configuration) (table key : slice) :
  m_config d = Some cfg ->
  let listed := cfg_hash cfg (get_data_center cfg (us_id (m_us d)))
                         (choose_index table key) in
  exists rs : list comm_id,
    choose_replicas table key d = Done (rs, 5) d [] /\
    (length rs <= 5)%nat /\
    (forall r, In r rs -> exists l, listed = Some l /\ In r l) /\
    (listed = None -> rs = []) /\
    (choose_index table key = CONSUS_KVS_PARTITIONS -> rs = []).
Proof.
  intros Hcfg listed. unfold choose_replicas.
  destruct (choose_index table key =? CONSUS_KVS_PARTITIONS) eqn:Hguard.
  - exists []. split; [reflexivity |]. split; [simpl; lia |].
    split; [intros r [] |]. split; reflexivity.
  - rewrite (bind_done _ _ d d (Some cfg) [])
      by (unfold get_config; rewrite Hcfg; reflexivity).
    rewrite (bind_done _ _ d d cfg []) by reflexivity.
    rewrite (bind_done _ _ d d (m_us d) []) by reflexivity.
    fold listed. unfold ret. simpl app.
    destruct listed as [l |] eqn:Hl.
    + exists (firstn (Z.to_nat 5) l).
      split; [reflexivity |].
      split; [rewrite length_firstn; lia |].
      split.
      * intros r Hin. exists l. split; [reflexivity |].
        rewrite <- (firstn_skipn (Z.to_nat 5) l).
        apply in_or_app. left. exact Hin.
      * split; [discriminate |].
        intros Heq. apply Z.eqb_neq in Hguard. contradiction.
    + exists []. split; [reflexivity |]. split; [simpl; lia |].
      split; [intros r [] |]. split; reflexivity.
Qed.

(** ** Confinement of the storage handlers *)

















(** ** Traffic the daemon has nothing to do with *)

Lemma dispatch_ignored (d : daemon) (r : recv_result) (mt : network_msgtype)
    (remain : nat) :
  recv_rc r = BUSYBEE_SUCCESS ->
  buf_msgtype (recv_msg r) = Unpacked mt remain ->
  ignored_by d r = true ->
  dispatch (recv_id r) (recv_msg r) mt d = Done tt d [].
Proof.
  intros Hrc Hmt Hign. unfold ignored_by in Hign. rewrite Hrc, Hmt in Hign.
  destruct mt; try discriminate Hign; try reflexivity; cbn [dispatch].
  - destruct (buf_read (recv_msg r)); [reflexivity | discriminate].
  - destruct (buf_read_resp (recv_msg r)) as [| [[[[nonce rc] ts] value] owner] rem];
      [reflexivity |].
    simpl. destruct (m_repl_rd d !! nonce); [discriminate | reflexivity].
  - destruct (buf_write (recv_msg r)); [reflexivity | discriminate].
  - destruct (buf_write_resp (recv_msg r)) as [| [[[nonce rc] o1] o2] rem];
      [reflexivity |].
    simpl. destruct (m_repl_wr d !! nonce); [discriminate | reflexivity].
  - destruct (buf_lock_op (recv_msg r)); [reflexivity | discriminate].
  - destruct (buf_migrate (recv_msg r)); [reflexivity | discriminate].
  - destruct (buf_migrate (recv_msg r)) as [| [key v] rem]; [reflexivity |].
    simpl. destruct (m_migrations d !! key); [discriminate | reflexivity].
Qed.

(** X9: A run of deliveries that are all disrupted or interrupted receives,
    malformed headers, message types that key-value stores do not
    process, corrupt payloads, or responses and acknowledgements without
    matching state: the loop goes through all of them, calls neither the
    store nor the bus, leaves the daemon exactly as it was, and waits for
    the next message. *)
Theorem loop_ignores (inputs : list recv_result) (d : daemon) :
  Forall (fun r => ignored_by d r = true) inputs ->
  loop inputs d = Done Loop_receiving d [].
Proof.
  induction 1 as [| r rest Hr _ IH]; [reflexivity |].
  cbn [loop].
  destruct (recv_rc r) eqn:Hrc;
    try (unfold ignored_by in Hr; rewrite Hrc in Hr; discriminate Hr);
    try exact IH.
  destruct (buf_msgtype (recv_msg r)) as [| mt remain] eqn:Hmt; [exact IH |].
  rewrite (bind_done _ _ d d tt [])
    by (apply (dispatch_ignored d r mt remain); assumption).
  rewrite IH. reflexivity.
Qed.

(** ** Feeding the loop in two parts *)

(** X10: The loop on two runs of deliveries, one after the other: if it comes
    through the first run still receiving, it goes on with the second run
    from the state reached, and the events add up; if it returned or the
    process stopped during the first run, the second run is never
    looked at. *)
Theorem loop_app (a b : list recv_result) (d : daemon) :
  loop (a ++ b) d =
    match loop a d with
    | Done Loop_receiving d' tr => after_trace tr (loop b d')
    | r => r
    end.
Proof.
  revert d. induction a as [| r rest IH]; intros d.
  - simpl. destruct (loop b d); reflexivity.
  - simpl app. cbn [loop].
    destruct (recv_rc r); try reflexivity; try apply IH.
    destruct (buf_msgtype (recv_msg r)) as [| mt remain]; [apply IH |].
    unfold bind.
    destruct (dispatch (recv_id r) (recv_msg r) mt d) as [u d1 tr1 | s tr1];
      [| reflexivity].
    rewrite IH.
    destruct (loop rest d1) as [[|] d2 tr2 | s tr2]; try reflexivity.
    destruct (loop b d2) as [x d3 tr3 | s tr3]; simpl; rewrite app_assoc; reflexivity.
Qed.

(** ** Successive configurations *)

Lemma deliver_configs_rejected (ups : list (unpacker configuration)) (d : daemon) :
  Forall (fun u => accepted u = None) ups ->
  deliver_configs ups d = Done (map (fun _ => false) ups) d [].
Proof.
  induction 1 as [| up rest Hup _ IH]; [reflexivity |].
  cbn [deliver_configs].
  assert (Hnew : new_config up d = Done false d []).
  { destruct up as [| c [| n]]; try reflexivity. discriminate Hup. }
  rewrite (bind_done _ _ d d false [] Hnew).
  rewrite (bind_done _ _ d d (map (fun _ => false) rest) [] IH).
  reflexivity.
Qed.

Lemma deliver_configs_total (ups : list (unpacker configuration)) (d : daemon) :
  exists d',
    deliver_configs ups d = Done (map (fun u => negb (is_none (accepted u))) ups) d' [] /\
    us_id (m_us d') = us_id (m_us d) /\
    m_data d' = m_data d /\
    m_busybee d' = m_busybee d /\
    m_repl_rd d' = m_repl_rd d /\
    m_repl_wr d' = m_repl_wr d /\
    m_migrations d' = m_migrations d.
Proof.
  revert d. induction ups as [| up rest IH]; intros d.
  - exists d. repeat split.
  - cbn [deliver_configs].
    assert (Hnew : exists d1,
               new_config up d = Done (negb (is_none (accepted up))) d1 [] /\
               us_id (m_us d1) = us_id (m_us d) /\
               m_data d1 = m_data d /\
               m_busybee d1 = m_busybee d /\
               m_repl_rd d1 = m_repl_rd d /\
               m_repl_wr d1 = m_repl_wr d /\
               m_migrations d1 = m_migrations d).
    { destruct up as [| c [| n]].
      - exists d. repeat split.
      - exists (install_config c d). repeat split.
      - exists d. repeat split. }
    destruct Hnew as (d1 & Hnew & h1 & h2 & h3 & h4 & h5 & h6).
    destruct (IH d1) as (d2 & Hrest & g1 & g2 & g3 & g4 & g5 & g6).
    exists d2.
    rewrite (bind_done _ _ d d1 _ [] Hnew).
    rewrite (bind_done _ _ d1 d2 _ [] Hrest).
    repeat split; congruence.
Qed.

(** X11: After any sequence of configuration blobs, the daemon holds the last
    blob that unpacked cleanly, whatever was installed before and whatever
    the versions: the three queries of the callback answer from it, the
    data center of this server is the one it assigns, and the migration
    thread has been told.  Each call returned true exactly for the clean
    blobs; identity, store, bus, replicators and migrators are as
    before. *)
Theorem deliver_configs_last
    (pre rest : list (unpacker configuration)) (up : unpacker configuration)
    (c : configuration) (d : daemon) :
  accepted up = Some c ->
  Forall (fun u => accepted u = None) rest ->
  exists d',
    deliver_configs (pre ++ up :: rest) d
    = Done (map (fun u => negb (is_none (accepted u))) (pre ++ up :: rest)) d' [] /\
    m_config d' = Some c /\
    (forall id, has_id d' id = cfg_exists c id) /\
    (forall id, address d' id = get_address c id) /\
    (forall id, is_steady_state d' id = true <-> get_state c id = KVS_ONLINE) /\
    us_dc (m_us d') = get_data_center c (us_id (m_us d)) /\
    m_have_new_config d' = true /\
    us_id (m_us d') = us_id (m_us d) /\
    m_data d' = m_data d /\
    m_busybee d' = m_busybee d /\
    m_repl_rd d' = m_repl_rd d /\
    m_repl_wr d' = m_repl_wr d /\
    m_migrations d' = m_migrations d.
Proof.
  intros Hup Hrest. revert d.
  induction pre as [| p pre IH]; intros d.
  - simpl app. cbn [deliver_configs map].
    destruct up as [| c0 [| n]]; try discriminate Hup.
    injection Hup as ->.
    exists (install_config c d).
    rewrite (bind_done _ _ d (install_config c d) true []) by reflexivity.
    rewrite (bind_done _ _ _ _ _ [] (deliver_configs_rejected rest _ Hrest)).
    assert (Hmap : map (fun _ : unpacker configuration => false) rest
                   = map (fun u => negb (is_none (accepted u))) rest).
    { apply map_ext_in. intros u Hu.
      rewrite (proj1 (List.Forall_forall _ _) Hrest u Hu). reflexivity. }
    split; [rewrite Hmap; reflexivity |].
    split; [reflexivity |].
    split; [intros id; reflexivity |].
    split; [intros id; reflexivity |].
    split.
    { intros id. unfold is_steady_state. simpl.
      destruct (get_state c id); simpl; split; congruence. }
    repeat split.
  - simpl app. cbn [deliver_configs map].
    destruct (deliver_configs_total [p] d)
      as (d1 & Hp & h1 & h2 & h3 & h4 & h5 & h6).
    cbn [deliver_configs map] in Hp.
    assert (Hnew : new_config p d = Done (negb (is_none (accepted p))) d1 []).
    { unfold bind, ret in Hp.
      destruct (new_config p d) as [ok dx tr | s tr]; [| discriminate Hp].
      injection Hp as -> -> Htr.
      rewrite app_nil_r in Htr. rewrite Htr. reflexivity. }
    destruct (IH d1) as (d2 & Hrun & Hc & Hhas & Haddr & Hsteady & Hdc & Hflag
                         & g1 & g2 & g3 & g4 & g5 & g6).
    exists d2.
    rewrite (bind_done _ _ d d1 _ [] Hnew).
    rewrite (bind_done _ _ d1 d2 _ [] Hrun).
    split; [reflexivity |].
    split; [exact Hc |].
    split; [exact Hhas |].
    split; [exact Haddr |].
    split; [exact Hsteady |].
    split; [rewrite Hdc, h1; reflexivity |].
    split; [exact Hflag |].
    repeat split; congruence.
Qed.

(** ** A raw write followed by a raw read *)

Lemma send_then_ret_state (id : comm_id) (msg : message) (d d' : daemon) :
  state_of (bind (send id msg) (fun _ => ret tt) d) = Some d' ->
  exists b, d' = set_busybee b d.
Proof.
  intros H. apply (proj2 (send_then_ret id msg d)). exact H.
Qed.

Lemma raw_wr_store
    (d d1 : daemon) (cfg : configuration) (id : comm_id)
    (nonce flags : Z) (table key : slice) (timestamp : Z) (value : slice)
    (remain : nat) :
  m_config d = Some cfg ->
  choose_index table key <> CONSUS_MAX_REPLICATION_FACTOR ->
  state_of (process_raw_wr id
              (Unpacked (nonce, flags, table, key, timestamp, value) remain) d)
  = Some d1 ->
  exists b,
    d1 = set_busybee b
           (set_data (if Z.land CONSUS_WRITE_TOMBSTONE flags =? 0
                      then snd (dl_put (m_data d) table key timestamp value)
                      else snd (dl_del (m_data d) table key timestamp)) d).
Proof.
  intros Hcfg Hne. unfold process_raw_wr.
  rewrite (bind_done _ _ d d (Some cfg) [])
    by (unfold get_config; rewrite Hcfg; reflexivity).
  apply Z.eqb_neq in Hne. rewrite Hne.
  rewrite (bind_done _ _ d d cfg []) by reflexivity.
  rewrite (bind_done _ _ d d (m_us d) []) by reflexivity.
  destruct (cfg_map cfg (us_dc (m_us d)) (choose_index table key)) as [owner1 owner2].
  destruct (Z.land CONSUS_WRITE_TOMBSTONE flags =? 0); cbn [negb].
  - destruct (dl_put (m_data d) table key timestamp value) as [rc s] eqn:Hput.
    rewrite (bind_done _ _ d (set_data s d) rc [DataPut table key timestamp value])
      by (unfold data_put; rewrite Hput; reflexivity).
    cbn [snd].
    set (msg := mk_message KVS_RAW_WR_RESP _).
    pose proof (send_then_ret_state id msg (set_data s d)) as Hs.
    destruct (bind (send id msg) (fun _ => ret tt) (set_data s d)) as [u d2 tr | st tr];
      simpl in *; [| discriminate].
    intros [= <-]. apply Hs. reflexivity.
  - destruct (dl_del (m_data d) table key timestamp) as [rc s] eqn:Hdel.
    rewrite (bind_done _ _ d (set_data s d) rc [DataDel table key timestamp])
      by (unfold data_del; rewrite Hdel; reflexivity).
    cbn [snd].
    set (msg := mk_message KVS_RAW_WR_RESP _).
    pose proof (send_then_ret_state id msg (set_data s d)) as Hs.
    destruct (bind (send id msg) (fun _ => ret tt) (set_data s d)) as [u d2 tr | st tr];
      simpl in *; [| discriminate].
    intros [= <-]. apply Hs. reflexivity.
Qed.

(** X12: A raw read that follows a raw write of the same key is answered from
    the store that the write's [put] (or, under the tombstone flag, [del])
    handed back, with the same first owner; the reply goes to the reader
    and carries the reader's nonce. *)
Theorem raw_wr_then_rd
    (d d1 : daemon) (cfg : configuration) (writer reader : comm_id)
    (nonce flags : Z) (table key : slice) (timestamp : Z) (value : slice)
    (remain : nat) (nonce' timestamp' : Z) (remain' : nat) :
  m_config d = Some cfg ->
  choose_index table key <> CONSUS_MAX_REPLICATION_FACTOR ->
  state_of (process_raw_wr writer
              (Unpacked (nonce, flags, table, key, timestamp, value) remain) d)
  = Some d1 ->
  let store :=
    if Z.land CONSUS_WRITE_TOMBSTONE flags =? 0
    then snd (dl_put (m_data d) table key timestamp value)
    else snd (dl_del (m_data d) table key timestamp) in
  trace_of (process_raw_rd reader (Unpacked (nonce', table, key, timestamp') remain') d1)
  = [DataGet table key timestamp';
     BusSend reader
       (raw_rd_resp nonce' (fst (dl_get store table key timestamp'))
          (fst (cfg_map cfg (us_dc (m_us d)) (choose_index table key))))].
Proof.
  intros Hcfg Hne Hst store.
  destruct (raw_wr_store d d1 cfg writer nonce flags table key timestamp value
              remain Hcfg Hne Hst) as [b ->].
  fold store.
  rewrite (raw_rd_guard_passed _ cfg) by assumption.
  reflexivity.
Qed.

(** ** Redelivered migration SYNs *)

Lemma migrate_syn_trace (id : comm_id) (key : partition_id) (v : version_id)
    (remain : nat) (d : daemon) :
  trace_of (process_migrate_syn id (Unpacked (key, v) remain) d)
  = match m_config d with
    | Some cfg =>
        if version cfg >=? v
        then [BusSend id (migrate_ack key (version cfg))]
        else []
    | None => []
    end.
Proof.
  unfold process_migrate_syn.
  rewrite (bind_done _ _ d d (m_config d) []) by reflexivity.
  destruct (m_config d) as [cfg |]; [| reflexivity].
  rewrite (bind_done _ _ d d cfg []) by reflexivity.
  destruct (version cfg >=? v); [| reflexivity].
  fold (migrate_ack key (version cfg)).
  destruct (send_then_ret id (migrate_ack key (version cfg)) d) as [Ht _].
  destruct (bind (send id (migrate_ack key (version cfg))) (fun _ => ret tt) d);
    simpl in *; rewrite Ht; reflexivity.
Qed.

Lemma migrate_syn_state (id : comm_id) (up : unpacker (partition_id * version_id))
    (d d' : daemon) :
  state_of (process_migrate_syn id up d) = Some d' ->
  m_config d' = m_config d.
Proof.
  destruct up as [| [key v] remain]; [intros [= <-]; reflexivity |].
  unfold process_migrate_syn.
  rewrite (bind_done _ _ d d (m_config d) []) by reflexivity.
  destruct (m_config d) as [cfg |] eqn:Hcfg; [| discriminate].
  rewrite (bind_done _ _ d d cfg []) by reflexivity.
  destruct (version cfg >=? v).
  - pose proof (send_then_ret_state id
                  (mk_message KVS_MIGRATE_ACK
                     [F_partition_id key; F_version_id (version cfg)]) d) as Hs.
    destruct (bind (send id _) (fun _ => ret tt) d) as [u d2 tr | st tr];
      simpl in *; [| discriminate].
    intros [= <-]. destruct (Hs d2 eq_refl) as [b ->]. simpl. exact Hcfg.
  - intros [= <-]. exact Hcfg.
Qed.

(** X13: A migration SYN that is delivered again gets the same answer as the
    first time: the same acknowledgement, or again none.  Every
    acknowledgement goes to the sender of the SYN, names the SYN's
    partition and carries a version that is at least the target. *)
Theorem migrate_syn_redelivery
    (d d1 : daemon) (id : comm_id) (key : partition_id) (v : version_id)
    (remain : nat) :
  state_of (process_migrate_syn id (Unpacked (key, v) remain) d) = Some d1 ->
  trace_of (process_migrate_syn id (Unpacked (key, v) remain) d1)
  = trace_of (process_migrate_syn id (Unpacked (key, v) remain) d) /\
  (forall e, In e (trace_of (process_migrate_syn id (Unpacked (key, v) remain) d)) ->
             exists v', e = BusSend id (migrate_ack key v') /\ v <= v').
Proof.
  intros Hst. split.
  - rewrite !migrate_syn_trace.
    rewrite (migrate_syn_state id _ d d1 Hst). reflexivity.
  - intros e. rewrite migrate_syn_trace.
    destruct (m_config d) as [cfg |]; [| intros []].
    destruct (version cfg >=? v) eqn:Hge; [| intros []].
    intros [<- | []]. exists (version cfg). split; [reflexivity |].
    apply Z.geb_le in Hge. exact Hge.
Qed.


(** ** Keys the raw handlers never serve *)

(** X14: When [CONSUS_MAX_REPLICATION_FACTOR] fits in 16 bits, the keys for
    which a raw read or write produces neither a storage call nor a reply
    are exactly the keys whose first two bytes, padded with zeros, spell
    that constant in big-endian. *)
Theorem raw_requests_unserved_keys
    (d : daemon) (cfg : configuration) (id : comm_id)
    (nonce flags : Z) (table key : slice) (timestamp : Z) (value : slice)
    (remain : nat) :
  m_config d = Some cfg ->
  0 <= CONSUS_MAX_REPLICATION_FACTOR <= 65535 ->
  (trace_of (process_raw_rd id (Unpacked (nonce, table, key, timestamp) remain) d) = []
   <-> firstn 2 (key ++ [x00; x00]) = key_of_index CONSUS_MAX_REPLICATION_FACTOR) /\
  (trace_of (process_raw_wr id
               (Unpacked (nonce, flags, table, key, timestamp, value) remain) d) = []
   <-> firstn 2 (key ++ [x00; x00]) = key_of_index CONSUS_MAX_REPLICATION_FACTOR).
Proof.
  intros Hcfg Hrange.
  assert (Hkey : choose_index table key = CONSUS_MAX_REPLICATION_FACTOR <->
                 firstn 2 (key ++ [x00; x00])
                 = key_of_index CONSUS_MAX_REPLICATION_FACTOR).
  { split.
    - intros Heq. rewrite <- Heq. symmetry. apply key_of_choose_index.
    - intros Heq.
      rewrite choose_index_buffer, <- padded_prefix, Heq.
      replace (key_of_index CONSUS_MAX_REPLICATION_FACTOR)
        with (firstn 2 (key_of_index CONSUS_MAX_REPLICATION_FACTOR ++ [x00; x00]))
        by reflexivity.
      rewrite padded_prefix, <- (choose_index_buffer table).
      apply choose_index_of_key_value. exact Hrange. }
  destruct (Z.eq_dec (choose_index table key) CONSUS_MAX_REPLICATION_FACTOR)
    as [Heq | Hne].
  - rewrite raw_rd_guard_hit, raw_wr_guard_hit by exact Heq.
    simpl. split; split; intros _; try reflexivity; apply Hkey; exact Heq.
  - rewrite (raw_rd_guard_passed d cfg), (raw_wr_guard_passed d cfg) by assumption.
    cbv zeta.
    split; split; intros H; try (apply Hkey in H; contradiction).
    + discriminate H.
    + destruct (Z.land CONSUS_WRITE_TOMBSTONE flags =? 0); discriminate H.
Qed.

End FurtherProperties.

(** * Further runs on concrete inputs *)

(** The lines "a", "" and "b" written out and split again. *)
Lemma split_by_newlines_of_join_witness :
  Forall (fun l => ~ In newline l) [["a"%byte]; []; ["b"%byte]] /\
  split_by_newlines ["a"%byte; newline; newline; "b"%byte; newline]
  = [["a"%byte]; []; ["b"%byte]].
Proof.
  assert (Hfree : Forall (fun l => ~ In newline l) [["a"%byte]; []; ["b"%byte]]).
  { constructor; [intros [H | []]; discriminate H |].
    constructor; [intros [] |].
    constructor; [intros [H | []]; discriminate H |].
    constructor. }
  split; [exact Hfree |].
  exact (split_by_newlines_of_join [["a"%byte]; []; ["b"%byte]] Hfree).
Defined.

(** Index 9 is the index of the key 00 09. *)
Lemma choose_index_of_key_witness :
  0 <= 9 <= 65535 /\
  choose_index ["t"%byte] (key_of_index 9) = 9 /\
  length (key_of_index 9) = 2%nat.
Proof.
  assert (Hn : 0 <= 9 <= 65535) by (split; discriminate).
  split; [exact Hn |].
  exact (choose_index_of_key ["t"%byte] 9 Hn).
Defined.

(** With two replicas listed, both are kept. *)
Lemma choose_replicas_bounded_witness :
  m_config (sample_daemon (Some (sample_config 4)) []) = Some (sample_config 4) /\
  exists rs : list comm_id,
    choose_replicas ["t"%byte] ["k"%byte] (sample_daemon (Some (sample_config 4)) [])
    = Done (rs, 5) (sample_daemon (Some (sample_config 4)) []) [] /\
    (length rs <= 5)%nat.
Proof.
  split; [reflexivity |].
  destruct (choose_replicas_bounded (sample_daemon (Some (sample_config 4)) [])
              (sample_config 4) ["t"%byte] ["k"%byte] eq_refl)
    as (rs & Hrun & Hlen & _).
  exists rs. split; [exact Hrun | exact Hlen].
Defined.

(** An interrupted receive, a malformed header, a transaction-manager
    message and a corrupt read response leave the daemon as it was. *)
Lemma loop_ignores_witness :
  Forall (fun r => ignored_by (sample_daemon None []) r = true)
    [recv_code BUSYBEE_INTERRUPTED;
     mk_recv BUSYBEE_SUCCESS 5 corrupt_buffer;
     mk_recv BUSYBEE_SUCCESS 5 (read_buffer TXMAN_BEGIN 3 ["t"%byte] ["k"%byte] 20);
     mk_recv BUSYBEE_SUCCESS 5 (read_buffer KVS_RAW_RD_RESP 3 ["t"%byte] ["k"%byte] 20)] /\
  loop (C := sample_collaborators)
    [recv_code BUSYBEE_INTERRUPTED;
     mk_recv BUSYBEE_SUCCESS 5 corrupt_buffer;
     mk_recv BUSYBEE_SUCCESS 5 (read_buffer TXMAN_BEGIN 3 ["t"%byte] ["k"%byte] 20);
     mk_recv BUSYBEE_SUCCESS 5 (read_buffer KVS_RAW_RD_RESP 3 ["t"%byte] ["k"%byte] 20)]
    (sample_daemon None [])
  = Done Loop_receiving (sample_daemon None []) [].
Proof.
  assert (Hall : Forall (fun r => ignored_by (sample_daemon None []) r = true)
    [recv_code BUSYBEE_INTERRUPTED;
     mk_recv BUSYBEE_SUCCESS 5 corrupt_buffer;
     mk_recv BUSYBEE_SUCCESS 5 (read_buffer TXMAN_BEGIN 3 ["t"%byte] ["k"%byte] 20);
     mk_recv BUSYBEE_SUCCESS 5 (read_buffer KVS_RAW_RD_RESP 3 ["t"%byte] ["k"%byte] 20)]).
  { repeat (constructor; [reflexivity |]). constructor. }
  split; [exact Hall |].
  exact (loop_ignores (C := sample_collaborators) _ (sample_daemon None []) Hall).
Defined.

(** Versions 5, then a blob with trailing bytes, then 3, then an unpack
    error: the daemon ends at version 3. *)
Lemma deliver_configs_last_witness :
  accepted (Unpacked (sample_config 3) 0%nat) = Some (sample_config 3) /\
  Forall (fun u => accepted u = None) [@Unpack_error configuration] /\
  exists d',
    deliver_configs
      ([Unpacked (sample_config 5) 0%nat; Unpacked (sample_config 7) 2%nat]
         ++ Unpacked (sample_config 3) 0%nat :: [Unpack_error])
      (sample_daemon None [])
    = Done [true; false; true; false] d' [] /\
    m_config d' = Some (sample_config 3).
Proof.
  assert (Hrest : Forall (fun u => accepted u = None) [@Unpack_error configuration]).
  { constructor; [reflexivity | constructor]. }
  split; [reflexivity |]. split; [exact Hrest |].
  destruct (deliver_configs_last
              [Unpacked (sample_config 5) 0%nat; Unpacked (sample_config 7) 2%nat]
              [Unpack_error] (Unpacked (sample_config 3) 0%nat) (sample_config 3)
              (sample_daemon None []) eq_refl Hrest)
    as (d' & Hrun & Hcfg & _).
  exists d'. split; [exact Hrun | exact Hcfg].
Defined.

(** After "y" is written at timestamp 20, a read at timestamp 25 is
    answered with "y" at 20 and owner 1. *)
Lemma raw_wr_then_rd_witness :
  trace_of
    (process_raw_rd 6 (Unpacked (8, ["t"%byte], ["k"%byte], 25) 0%nat)
       (set_data (X := sample_externals)
          [(["t"%byte], ["k"%byte], 20, Some ["y"%byte]);
           (["t"%byte], ["k"%byte], 10, Some ["x"%byte])]
          (sample_daemon (Some (sample_config 4)) [])))
  = [DataGet ["t"%byte] ["k"%byte] 25;
     BusSend 6 (raw_rd_resp 8 (CONSUS_SUCCESS, 20, ["y"%byte]) 1)].
Proof.
  assert (Hne : choose_index ["t"%byte] ["k"%byte]
                <> CONSUS_MAX_REPLICATION_FACTOR (Externals := sample_externals)).
  { intros H. vm_compute in H. discriminate H. }
  exact (raw_wr_then_rd (sample_daemon (Some (sample_config 4)) []) _
           (sample_config 4) 5 6 3 0 ["t"%byte] ["k"%byte] 20 ["y"%byte] 0%nat
           8 25 0%nat eq_refl Hne eq_refl).
Defined.

(** A SYN for version 18 at a daemon of version 18, delivered twice. *)
Lemma migrate_syn_redelivery_witness :
  trace_of (process_migrate_syn 5 (Unpacked (3, 18) 0%nat)
              (sample_daemon (Some (sample_config 18)) []))
  = [BusSend 5 (migrate_ack 3 18)] /\
  trace_of (process_migrate_syn 5 (Unpacked (3, 18) 0%nat)
              (sample_daemon (Some (sample_config 18)) []))
  = trace_of (process_migrate_syn 5 (Unpacked (3, 18) 0%nat)
                (sample_daemon (Some (sample_config 18)) [])).
Proof.
  split; [reflexivity |].
  exact (proj1 (migrate_syn_redelivery
                  (sample_daemon (Some (sample_config 18)) [])
                  (sample_daemon (Some (sample_config 18)) [])
                  5 3 18 0%nat eq_refl)).
Defined.

(** With replication factor 9, the key 00 09 is not served. *)
Lemma raw_requests_unserved_keys_witness :
  m_config (sample_daemon (Some (sample_config 4)) []) = Some (sample_config 4) /\
  trace_of (process_raw_rd 5 (Unpacked (3, ["t"%byte], [x00; x09; "k"%byte], 20) 0%nat)
              (sample_daemon (Some (sample_config 4)) [])) = [].
Proof.
  split; [reflexivity |].
  assert (Hr : 0 <= CONSUS_MAX_REPLICATION_FACTOR (Externals := sample_externals) <= 65535)
    by (split; discriminate).
  apply (proj1 (raw_requests_unserved_keys
                  (sample_daemon (Some (sample_config 4)) []) (sample_config 4)
                  5 3 0 ["t"%byte] [x00; x09; "k"%byte] 20 [] 0%nat eq_refl Hr)).
  reflexivity.
Defined.
